(** * Touchline: the xG model parameter extractor

    A shallow embedding of [extract_xg_model.py] (one function, [main]) and
    the properties its specification states about it.

    The script reads a pickled scikit-learn pipeline from a fixed path beside
    the script, pulls four numeric artefacts out of it, prints them as
    TypeScript [let] statements and, when [--json] is among the arguments,
    also dumps them as indented JSON beside the input.

    Layout of the development:
    - text helpers (strings are byte strings: text is UTF-8 encoded);
    - the Python runtime the script leans on: values a pickle can hold,
      exceptions, indexing, attribute access, [tolist], [float], [repr],
      [json.dump], [pathlib], a file system and the two output streams;
    - [main], written line by line after the source;
    - the vocabulary of the specification: well-formed artefacts, the
      shape of the printed lines, reading the two outputs back;
    - a concrete runtime and the scenarios of the specification;
    - the claims C1 to C10, each with the claim it settles. *)

From Stdlib Require Import ZArith Ascii String List Bool Lia.
From Stdlib Require Import Decimal DecimalString DecimalPos.
From stdpp Require Import base option strings gmap.
Import ListNotations.

Set Warnings "-register-all".

(** Texts are built by appending: let [simpl] append to a literal. *)
Arguments String.append !s1 s2 : simpl nomatch.

(** ** Text *)

Module Text.

Definition newline : ascii := "010"%char.
Definition dquote : ascii := ascii_of_nat 34.
Definition space : ascii := " "%char.

Definition nl : string := String newline EmptyString.

(** [sep.join(parts)] *)
Definition join (sep : string) (parts : list string) : string :=
  String.concat sep parts.

(** [c * n] for a one-character string *)
Fixpoint replicate_char (n : nat) (c : ascii) : string :=
  match n with
  | O => EmptyString
  | S n' => String c (replicate_char n' c)
  end.

Fixpoint chars (s : string) : list ascii :=
  match s with
  | EmptyString => []
  | String c s' => c :: chars s'
  end.

(** [s] holds no character that [d] accepts. *)
Definition free_of (d : ascii -> bool) (s : string) : bool :=
  forallb (fun c => negb (d c)) (chars s).

(** [s] is made of characters that [d] accepts. *)
Definition made_of (d : ascii -> bool) (s : string) : bool :=
  forallb d (chars s).

Definition nonempty (s : string) : bool :=
  match s with
  | EmptyString => false
  | String _ _ => true
  end.

(** [s + c] *)
Definition snoc (s : string) (c : ascii) : string :=
  s +:+ String c EmptyString.

(** The pieces of [cur + s] between the characters of [s] that [d]
    accepts, empty pieces kept: with [d] the test for one character [c],
    [fields d EmptyString s] is [s.split(c)]. *)
Fixpoint fields (d : ascii -> bool) (cur s : string) : list string :=
  match s with
  | EmptyString => [cur]
  | String c s' =>
      if d c then cur :: fields d EmptyString s'
      else fields d (snoc cur c) s'
  end.

Definition flush (cur : string) : list string :=
  if nonempty cur then [cur] else [].

(** The maximal runs of characters that [d] rejects, in [cur + s] with
    [cur] a run already begun. *)
Fixpoint tokens_from (d : ascii -> bool) (cur s : string) : list string :=
  match s with
  | EmptyString => flush cur
  | String c s' =>
      if d c then flush cur ++ tokens_from d EmptyString s'
      else tokens_from d (snoc cur c) s'
  end.

Definition tokens (d : ascii -> bool) (s : string) : list string :=
  tokens_from d EmptyString s.

(** [s.split(newline)] *)
Definition split_lines (s : string) : list string :=
  fields (Ascii.eqb newline) EmptyString s.

(** [s] without its last character *)
Fixpoint chop (s : string) : string :=
  match s with
  | EmptyString => EmptyString
  | String c EmptyString => EmptyString
  | String c s' => String c (chop s')
  end.

(** [s[i:i+len(p)] == p] for some [i] *)
Fixpoint contains (p s : string) : bool :=
  String.prefix p s ||
  match s with
  | EmptyString => false
  | String _ s' => contains p s'
  end.

End Text.
Import Text.

(** ** Exceptions *)

(** The keys a mapping is looked up with: [d[0]], [d["mean_"]]. *)
Inductive pykey :=
| KInt (n : Z)
| KStr (s : string).

Definition pykey_eqb (a b : pykey) : bool :=
  match a, b with
  | KInt m, KInt n => Z.eqb m n
  | KStr s, KStr t => String.eqb s t
  | _, _ => false
  end.

Inductive exn :=
| SystemExit (code : Z)
| FileNotFoundError (p : string)
| IsADirectoryError (p : string)
| NotADirectoryError (p : string)
| PermissionError (p : string)
| NoSpaceLeft (p : string)           (* OSError(ENOSPC) *)
| EOFError
| UnpicklingError
| OtherError (name : string)         (* any other subclass of Exception *)
| TypeError
| IndexError
| KeyError (k : pykey)
| AttributeError (name : string)
| ValueError.

(** How [pickle.load] fails on bytes that are no pickle of a value: on an
    empty or truncated file with [EOFError], on a byte that is no opcode
    with [UnpicklingError], and with whatever error a damaged stream runs
    into otherwise ([AttributeError], [ImportError], [IndexError], ...). *)
Inductive load_failure :=
| LoadEOF
| LoadUnpickling
| LoadOther (name : string).

Definition load_exn (f : load_failure) : exn :=
  match f with
  | LoadEOF => EOFError
  | LoadUnpickling => UnpicklingError
  | LoadOther name => OtherError name
  end.

Inductive result (A : Type) :=
| Ok (a : A)
| Raise (e : exn).
Arguments Ok {A} a.
Arguments Raise {A} e.

Definition rbind {A B} (r : result A) (k : A -> result B) : result B :=
  match r with
  | Ok a => k a
  | Raise e => Raise e
  end.

(** [d[k]] on a dict literal, kept in insertion order *)
Fixpoint dict_get {V : Type} (d : list (string * V)) (k : string) : result V :=
  match d with
  | [] => Raise (KeyError (KStr k))
  | (k', v) :: d' => if String.eqb k k' then Ok v else dict_get d' k
  end.

(** [x in l] for a list of strings *)
Definition list_contains (x : string) (l : list string) : bool :=
  existsb (String.eqb x) l.

(** ** pathlib (pure POSIX paths) *)

Record path := Path { absolute : bool; parts : list string }.

(** [p.parent] *)
Definition path_parent (p : path) : path :=
  Path (absolute p) (removelast (parts p)).

(** [p / name], for a [name] that is one relative component *)
Definition path_div (p : path) (name : string) : path :=
  Path (absolute p) (parts p ++ [name]).

(** [p.with_name(name)]: [ValueError] on a path with an empty name *)
Definition path_with_name (p : path) (name : string) : result path :=
  match parts p with
  | [] => Raise ValueError
  | _ :: _ => Ok (Path (absolute p) (removelast (parts p) ++ [name]))
  end.

(** [str(p)], which is also what [open] and [exists] hand to the system *)
Definition path_str (p : path) : string :=
  match absolute p, parts p with
  | true, ps => "/" +:+ join "/" ps
  | false, [] => "."
  | false, ps => join "/" ps
  end.

Arguments path_str : simpl never.

(** ** Floating point numbers

    The script never computes with a number: it moves binary64 values from
    the pickle to two renderers.  Which text a value renders to is the
    business of the Python runtime ([float.__repr__], the shortest string
    that reads back as the same value), so the development is parametric in
    the type of floats and in that rendering.  [json.dump] renders finite
    values the same way and has names of its own for the three others.
    The text of a stack trace is the interpreter's too. *)

Inductive float_kind := Finite | NaN | PosInf | NegInf.

Class Runtime (float : Type) := {
  (** [float.__repr__] *)
  float_repr : float -> string;
  (** finite, not a number, or one of the infinities *)
  float_class : float -> float_kind;
  (** [float(s)], [None] for a [ValueError]; the script never calls it, it
      serves to read its output back *)
  float_parse : string -> option float;
  (** what the interpreter writes to the diagnostic stream for an
      exception nobody caught *)
  traceback : exn -> string;
  (** how [pickle.load] fails on given bytes that are no pickle of a value *)
  unpickle_error : string -> load_failure;
}.

(** ** Values

    What [pickle.load] can hand to the script, as far as the script looks
    at it: the sequences and mappings it subscripts, the objects it reads
    attributes of, and the float64 arrays it reads.  A NumPy scalar and a
    0-d array answer the three operations used here ([a[0]], [a.tolist()],
    [float(a)]) in the same way and are both [NScalar].  An object is an
    instance of a class that leaves subscripting and attribute access as
    Python defines them; a mapping is a dict keyed by integers or strings.
    Other kinds of Python object (strings, bytes, instances of classes with
    hooks of their own) are no values of this model. *)

Inductive ndarray (float : Type) :=
| NScalar (x : float)
| NArray (items : list (ndarray float)).
Arguments NScalar {float} x.
Arguments NArray {float} items.

Inductive pyval (float : Type) :=
| VNone
| VFloat (x : float)
| VList (items : list (pyval float))                  (* list or tuple *)
| VArray (a : ndarray float)
| VObject (attrs : list (string * pyval float))       (* an instance and its __dict__ *)
| VPipeline (steps : list (string * pyval float))     (* sklearn.pipeline.Pipeline *)
| VDict (items : list (pykey * pyval float)).         (* dict, in insertion order *)
Arguments VNone {float}.
Arguments VFloat {float} x.
Arguments VList {float} items.
Arguments VArray {float} a.
Arguments VObject {float} attrs.
Arguments VPipeline {float} steps.
Arguments VDict {float} items.

(** Plain Python data: what [tolist] and [float] return, hence what the
    values of the [params] dict are made of. *)
Inductive plain (float : Type) :=
| PFloat (x : float)
| PList (items : list (plain float)).
Arguments PFloat {float} x.
Arguments PList {float} items.

(** ** Files, streams and the process *)

(** What a regular file holds: either a pickle of plain data, bytes that
    [pickle.load] turns into the value [v] and does nothing else with, or
    bytes it fails on (text, an empty file, a damaged pickle).  A pickle is
    a program, and one that prints, ends the process or touches a file
    while it is loaded is no content of this model: a statement about
    every file system of the model says nothing about such a file. *)
Inductive content (float : Type) :=
| Pickled (v : pyval float)
| Raw (bytes : string).
Arguments Pickled {float} v.
Arguments Raw {float} bytes.

Inductive node (float : Type) :=
| Dir (writable : bool)
| File (readable writable : bool) (c : content float).
Arguments Dir {float} writable.
Arguments File {float} readable writable c.

Inductive stream := Stdout | Stderr.

Inductive open_mode := ModeRead | ModeWrite.

(** What the process does to the outside, in order. *)
Inductive event :=
| EvPrint (s : stream) (text : string)
| EvOpen (p : string) (mode : open_mode)
| EvWrite (p : string) (text : string)
| EvTraceback (e : exn).

(** The file system is keyed by the path strings the system calls receive. *)
Record state (float : Type) :=
  State { fs : gmap string (node float); trace : list event }.
Arguments State {float} fs trace.
Arguments fs {float} s.
Arguments trace {float} s.

(** What the process is started with: [sys.argv], [Path(__file__)] and the
    room left on the disk (in bytes). *)
Record env := Env { argv : list string; script : path; disk_free : nat }.

(** How the process ends. *)
Record outcome (float : Type) :=
  Outcome { exit_status : Z; final : state float }.
Arguments Outcome {float} exit_status final.
Arguments exit_status {float} o.
Arguments final {float} o.

(** Statements: state passing with exceptions. *)
Definition M (float : Type) (A : Type) : Type :=
  state float -> result A * state float.

(** ** The script over an arbitrary runtime *)

Section Model.

Context {float : Type} {R : Runtime float}.

(** The value a dict holds for a key (a dict has one entry per key at most) *)
Fixpoint mapping_get {V : Type} (items : list (pykey * V)) (k : pykey) : option V :=
  match items with
  | [] => None
  | (k', v) :: rest => if pykey_eqb k k' then Some v else mapping_get rest k
  end.

(** [v[i]] *)
Definition getitem (v : pyval float) (i : nat) : result (pyval float) :=
  match v with
  | VList items =>
      match nth_error items i with
      | Some x => Ok x
      | None => Raise IndexError
      end
  | VPipeline steps =>
      match nth_error steps i with
      | Some (_, est) => Ok est
      | None => Raise IndexError
      end
  | VArray (NArray items) =>
      match nth_error items i with
      | Some a => Ok (VArray a)
      | None => Raise IndexError
      end
  | VArray (NScalar _) => Raise IndexError
  | VDict items =>
      match mapping_get items (KInt (Z.of_nat i)) with
      | Some x => Ok x
      | None => Raise (KeyError (KInt (Z.of_nat i)))
      end
  | VNone | VFloat _ | VObject _ => Raise TypeError
  end.

(** [v.name] for a data attribute *)
Definition getattr (v : pyval float) (name : string) : result (pyval float) :=
  match v with
  | VObject attrs =>
      match dict_get attrs name with
      | Ok x => Ok x
      | Raise _ => Raise (AttributeError name)
      end
  | _ => Raise (AttributeError name)
  end.

(** [ndarray.tolist]: nested lists of Python floats, a float for a scalar *)
Fixpoint ndarray_tolist (a : ndarray float) : plain float :=
  match a with
  | NScalar x => PFloat x
  | NArray items => PList (map ndarray_tolist items)
  end.

(** [v.tolist()]: a method of arrays; the values of this model are data, so
    an attribute of that name on an object cannot be called *)
Definition tolist (v : pyval float) : result (plain float) :=
  match v with
  | VArray a => Ok (ndarray_tolist a)
  | VObject attrs =>
      match dict_get attrs "tolist" with
      | Ok _ => Raise TypeError
      | Raise _ => Raise (AttributeError "tolist")
      end
  | _ => Raise (AttributeError "tolist")
  end.

(** The one element of an array that has exactly one *)
Fixpoint ndarray_item (a : ndarray float) : option float :=
  match a with
  | NScalar x => Some x
  | NArray [b] => ndarray_item b
  | NArray _ => None
  end.

(** [float(v)] *)
Definition to_float (v : pyval float) : result float :=
  match v with
  | VFloat x => Ok x
  | VArray a =>
      match ndarray_item a with
      | Some x => Ok x
      | None => Raise TypeError
      end
  | _ => Raise TypeError
  end.

(** [repr(v)], which is also [str(v)] and [format(v, EmptyString)] on
    floats and lists *)
Fixpoint py_repr (v : plain float) : string :=
  match v with
  | PFloat x => float_repr x
  | PList items => "[" +:+ join ", " (map py_repr items) +:+ "]"
  end.

(** *** json.dump(obj, f, indent=2) *)

(** [float] values: [float.__repr__] when finite *)
Definition json_number (x : float) : string :=
  match float_class x with
  | Finite => float_repr x
  | NaN => "NaN"
  | PosInf => "Infinity"
  | NegInf => "-Infinity"
  end.

(** A newline and the indentation of nesting depth [level] *)
Definition json_newline_indent (level : nat) : string :=
  nl +:+ replicate_char (2 * level) space.

(** A key: the keys of this program are ASCII identifiers, which the
    encoder quotes without escaping anything *)
Definition json_key (k : string) : string :=
  String dquote (snoc k dquote).

(** The items of a container at depth [level], one per line *)
Definition json_block (opening closing : string) (level : nat) (items : list string) : string :=
  match items with
  | [] => opening +:+ closing
  | _ :: _ =>
      opening +:+ json_newline_indent (S level)
      +:+ join ("," +:+ json_newline_indent (S level)) items
      +:+ json_newline_indent level +:+ closing
  end.

Fixpoint json_value (level : nat) (v : plain float) : string :=
  match v with
  | PFloat x => json_number x
  | PList items => json_block "[" "]" level (map (json_value (S level)) items)
  end.

Definition json_member (level : nat) (kv : string * plain float) : string :=
  json_key (fst kv) +:+ ": " +:+ json_value level (snd kv).

(** [json.dumps(d, indent=2)] for a dict at the top level *)
Definition json_dumps (d : list (string * plain float)) : string :=
  json_block "{" "}" 0 (map (json_member 1) d).

(** *** Statements *)

Definition ret {A} (a : A) : M float A := fun st => (Ok a, st).

Definition bind {A B} (m : M float A) (k : A -> M float B) : M float B :=
  fun st =>
    match m st with
    | (Ok a, st') => k a st'
    | (Raise e, st') => (Raise e, st')
    end.

Definition raise {A} (e : exn) : M float A := fun st => (Raise e, st).

(** An expression that touches nothing outside *)
Definition lift {A} (r : result A) : M float A := fun st => (r, st).

Definition emit (ev : event) : M float unit :=
  fun st => (Ok tt, State (fs st) (trace st ++ [ev])).

Notation "x <- m ;; k" := (bind m (fun x => k))
  (at level 90, m at next level, right associativity).
Notation "m ;;; k" := (bind m (fun _ => k))
  (at level 90, right associativity).

(** [print(text, file=s)] *)
Definition print (s : stream) (text : string) : M float unit :=
  emit (EvPrint s (text +:+ nl)).

(** [sys.exit(code)] *)
Definition sys_exit (code : Z) : M float unit := raise (SystemExit code).

(** [p.exists()] *)
Definition path_exists (p : path) : M float bool :=
  fun st =>
    match fs st !! path_str p with
    | Some _ => (Ok true, st)
    | None => (Ok false, st)
    end.

(** [open(p, "rb")] and reading all of it *)
Definition open_read (p : path) : M float (content float) :=
  emit (EvOpen (path_str p) ModeRead) ;;;
  fun st =>
    match fs st !! path_str p with
    | None => (Raise (FileNotFoundError (path_str p)), st)
    | Some (Dir _) => (Raise (IsADirectoryError (path_str p)), st)
    | Some (File r _ c) =>
        if r then (Ok c, st) else (Raise (PermissionError (path_str p)), st)
    end.

(** [pickle.load(f)] *)
Definition pickle_load (c : content float) : result (pyval float) :=
  match c with
  | Pickled v => Ok v
  | Raw bytes => Raise (load_exn (unpickle_error bytes))
  end.

(** [open(p, "w")]: truncates a file that is there, creates one that is not *)
Definition open_write (p : path) : M float unit :=
  emit (EvOpen (path_str p) ModeWrite) ;;;
  fun st =>
    match fs st !! path_str p with
    | Some (Dir _) => (Raise (IsADirectoryError (path_str p)), st)
    | Some (File r w _) =>
        if w
        then (Ok tt, State (<[path_str p := File r true (Raw EmptyString)]> (fs st)) (trace st))
        else (Raise (PermissionError (path_str p)), st)
    | None =>
        match fs st !! path_str (path_parent p) with
        | Some (Dir true) =>
            (Ok tt, State (<[path_str p := File true true (Raw EmptyString)]> (fs st)) (trace st))
        | Some (Dir false) => (Raise (PermissionError (path_str p)), st)
        | Some (File _ _ _) => (Raise (NotADirectoryError (path_str p)), st)
        | None => (Raise (FileNotFoundError (path_str p)), st)
        end
    end.

(** The first [n] bytes of a text *)
Fixpoint take_bytes (n : nat) (s : string) : string :=
  match n, s with
  | S n', String c s' => String c (take_bytes n' s')
  | _, _ => EmptyString
  end.

(** Writing [text] to the file opened at [p] and closing it: all of it when
    the disk has room, else what fits and an [OSError] *)
Definition file_write (e : env) (p : path) (text : string) : M float unit :=
  emit (EvWrite (path_str p) text) ;;;
  fun st =>
    let put t :=
      match fs st !! path_str p with
      | Some (File r w _) => <[path_str p := File r w (Raw t)]> (fs st)
      | _ => fs st
      end in
    if String.length text <=? disk_free e
    then (Ok tt, State (put text) (trace st))
    else (Raise (NoSpaceLeft (path_str p)),
          State (put (take_bytes (disk_free e) text)) (trace st)).

(** *** The script *)

(** [PKL_PATH = Path(__file__).parent / "xg_model.pkl"] (line 16) *)
Definition PKL_PATH (e : env) : path :=
  path_div (path_parent (script e)) "xg_model.pkl".

Definition banner : string :=
  "// ── Paste these into src/utils/xgModel.ts ──".

(** Lines 28 to 36: the two stages and the [params] dict, its entries
    evaluated in order *)
Definition extract (model : pyval float) : result (list (string * plain float)) :=
  rbind (getitem model 0) (fun scaler =>
  rbind (getitem model 1) (fun lr =>
  rbind (rbind (getattr scaler "mean_") tolist) (fun scaler_mean =>
  rbind (rbind (getattr scaler "scale_") tolist) (fun scaler_scale =>
  rbind (rbind (rbind (getattr lr "coef_") (fun c => getitem c 0)) tolist) (fun lr_coef =>
  rbind (rbind (rbind (getattr lr "intercept_") (fun b => getitem b 0)) to_float) (fun lr_intercept =>
  Ok [ ("scaler_mean", scaler_mean);
       ("scaler_scale", scaler_scale);
       ("lr_coef", lr_coef);
       ("lr_intercept", PFloat lr_intercept) ])))))).

(** [print(f"let NAME = {params[k]};")] *)
Definition print_let (lhs : string) (params : list (string * plain float)) (k : string) : M float unit :=
  v <- lift (dict_get params k) ;;
  print Stdout (lhs +:+ py_repr v +:+ ";").

(** Lines 38 to 42 *)
Definition report (params : list (string * plain float)) : M float unit :=
  print Stdout banner ;;;
  print_let "let SCALER_MEAN  = " params "scaler_mean" ;;;
  print_let "let SCALER_SCALE = " params "scaler_scale" ;;;
  print_let "let LR_COEF      = " params "lr_coef" ;;;
  print_let "let LR_INTERCEPT  = " params "lr_intercept".

(** The text of line 48, before [print] ends it *)
Definition confirmation (json_path : path) : string :=
  nl +:+ "Also wrote → " +:+ path_str json_path.

(** Lines 44 to 48 *)
Definition emit_json (e : env) (params : list (string * plain float)) : M float unit :=
  if list_contains "--json" (argv e) then
    json_path <- lift (path_with_name (PKL_PATH e) "xg_model_params.json") ;;
    open_write json_path ;;;
    file_write e json_path (json_dumps params) ;;;
    print Stderr (confirmation json_path)
  else ret tt.

(** The text of line 21, before [print] ends it *)
Definition not_found (pkl : path) : string :=
  "Error: " +:+ path_str pkl
  +:+ " not found. Train the model first (see xGandShotmap.ipynb).".

Definition main (e : env) : M float unit :=
  found <- path_exists (PKL_PATH e) ;;
  (if negb found then
     print Stderr (not_found (PKL_PATH e)) ;;;
     sys_exit 1
   else ret tt) ;;;
  f <- open_read (PKL_PATH e) ;;
  model <- lift (pickle_load f) ;;
  params <- lift (extract model) ;;
  report params ;;;
  emit_json e params.

(** The process: [main()] under the interpreter, which ends with status 0
    when [main] returns, with the code of a [SystemExit], and with a stack
    trace on the diagnostic stream and status 1 for any other exception. *)
Definition interpreter_exit (r : result unit * state float) : outcome float :=
  match r with
  | (Ok _, st) => Outcome 0 st
  | (Raise (SystemExit code), st) => Outcome code st
  | (Raise ex, st) => Outcome 1 (State (fs st) (trace st ++ [EvTraceback ex]))
  end.

Definition run (e : env) (files : gmap string (node float)) : outcome float :=
  interpreter_exit (main e (State files [])).

(** What an event leaves on a stream *)
Definition event_text (s : stream) (ev : event) : string :=
  match ev, s with
  | EvPrint Stdout text, Stdout => text
  | EvPrint Stderr text, Stderr => text
  | EvTraceback ex, Stderr => traceback ex
  | _, _ => EmptyString
  end.

(** What a stream has received *)
Fixpoint stream_text (s : stream) (tr : list event) : string :=
  match tr with
  | [] => EmptyString
  | ev :: tr' => event_text s ev +:+ stream_text s tr'
  end.

Definition stdout (o : outcome float) : string := stream_text Stdout (trace (final o)).
Definition stderr (o : outcome float) : string := stream_text Stderr (trace (final o)).
Definition files_after (o : outcome float) : gmap string (node float) := fs (final o).

End Model.

(** ** The vocabulary of the specification *)

Section Vocabulary.

Context {float : Type} {R : Runtime float}.

(** The numbers of a trained pipeline: the scaler's two vectors, the rows of
    the classifier's coefficient matrix (the first one apart) and its
    intercepts (the first one apart).  A binary classifier has one row and
    one intercept. *)
Record artifact := Artifact {
  mean : list float;
  scale : list float;
  coef : list float;
  coef_rest : list (list float);
  intercept : float;
  intercept_rest : list float;
}.

(** A 1-d and a 2-d float64 array *)
Definition vector (xs : list float) : pyval float :=
  VArray (NArray (map NScalar xs)).

Definition matrix (rows : list (list float)) : pyval float :=
  VArray (NArray (map (fun r => NArray (map NScalar r)) rows)).

(** The stages of an ordered sequence *)
Definition stages (model : pyval float) : option (list (pyval float)) :=
  match model with
  | VList items => Some items
  | VPipeline steps => Some (map snd steps)
  | _ => None
  end.

(** The object [obj] exposes the attribute [name] with value [v]. *)
Definition exposes (obj : pyval float) (name : string) (v : pyval float) : Prop :=
  getattr obj name = Ok v.

(** [model] is a two-element ordered sequence whose element 0 behaves as a
    scaler and whose element 1 behaves as a classifier, holding the
    numbers [a]. *)
Definition holds (model : pyval float) (a : artifact) : Prop :=
  exists scaler lr,
    stages model = Some [scaler; lr]
    /\ exposes scaler "mean_" (vector (mean a))
    /\ exposes scaler "scale_" (vector (scale a))
    /\ exposes lr "coef_" (matrix (coef a :: coef_rest a))
    /\ exposes lr "intercept_" (vector (intercept a :: intercept_rest a)).

(** The number of input features *)
Definition features (a : artifact) : nat := length (mean a).

(** The invariant of the data model: one entry per feature in every vector *)
Record consistent (a : artifact) : Prop := {
  scale_features : length (scale a) = features a;
  coef_features : length (coef a) = features a;
  rest_features : Forall (fun r => length r = features a) (coef_rest a);
  one_intercept_per_row : length (intercept_rest a) = length (coef_rest a);
}.

(** A well-formed trained pipeline *)
Definition well_formed (model : pyval float) (a : artifact) : Prop :=
  holds model a /\ consistent a.

(** A well-formed pipeline file at the fixed path *)
Definition well_formed_file (e : env) (files : gmap string (node float)) (a : artifact) : Prop :=
  exists w model,
    files !! path_str (PKL_PATH e) = Some (File true w (Pickled model))
    /\ well_formed model a.

(** All the numbers the script reads *)
Definition values (a : artifact) : list float :=
  mean a ++ scale a ++ coef a ++ [intercept a].

(** [[v1, v2, ..., vn]] with each [vi] in the default textual
    representation of floats *)
Definition vector_text (xs : list float) : string :=
  "[" +:+ join ", " (map float_repr xs) +:+ "]".

(** [let NAME = VALUE;] with [pad] spaces of alignment before the [=] *)
Definition let_statement (name : string) (pad : nat) (value : string) : string :=
  "let " +:+ name +:+ replicate_char pad space +:+ "= " +:+ value +:+ ";".

(** A text that fits in a line *)
Definition one_line (s : string) : bool := free_of (Ascii.eqb newline) s.

(** The punctuation and blanks of the two output formats *)
Definition delimiter (c : ascii) : bool :=
  existsb (Ascii.eqb c) (newline :: chars " ,;=:[]{}").

(** A text that stands as a number in both formats: not empty, and free of
    punctuation, blanks and quotes *)
Definition clean (t : string) : bool :=
  nonempty t && free_of (fun c => delimiter c || Ascii.eqb c dquote) t.

(** A float whose renderings stand as numbers *)
Definition printable (x : float) : Prop :=
  clean (float_repr x) = true /\ clean (json_number x) = true.

(** A float that [float(s)] reads back from both renderings *)
Definition readable (x : float) : Prop :=
  float_parse (float_repr x) = Some x /\ float_parse (json_number x) = Some x.

(** Reading standard output back: the name and the numbers of a [let]
    line, nothing for any other line *)
Definition read_let (line : string) : option (string * list string) :=
  match tokens delimiter line with
  | kw :: name :: numbers =>
      if String.eqb kw "let" then Some (name, numbers) else None
  | _ => None
  end.

Definition read_stdout (out : string) : list (string * list string) :=
  omap read_let (split_lines out).

(** Reading the JSON document back: its fields, each with its numbers *)
Definition is_key (t : string) : bool :=
  match t with
  | String c _ => Ascii.eqb c dquote
  | EmptyString => false
  end.

Definition unquote (t : string) : string :=
  match t with
  | String _ t' => chop t'
  | EmptyString => EmptyString
  end.

Definition group_field (t : string) (acc : list string * list (string * list string))
  : list string * list (string * list string) :=
  if is_key t then ([], (unquote t, fst acc) :: snd acc)
  else (t :: fst acc, snd acc).

Definition read_json (text : string) : list (string * list string) :=
  snd (fold_right group_field ([], []) (tokens delimiter text)).

(** The numbers of the fields read back, as floats *)
Definition parse_fields (fields : list (string * list string))
  : list (string * list (option float)) :=
  map (fun f => (fst f, map float_parse (snd f))) fields.

(** The text of the file at [p], if it is a regular file that holds text *)
Definition file_text (files : gmap string (node float)) (p : string) : option string :=
  match files !! p with
  | Some (File _ _ (Raw t)) => Some t
  | _ => None
  end.

(** The path of the JSON document: the input's directory and a fixed name *)
Definition JSON_PATH (e : env) : path :=
  path_div (path_parent (script e)) "xg_model_params.json".

(** The JSON file can be opened for writing and the disk has room for [n] bytes. *)
Definition json_writable (e : env) (files : gmap string (node float)) (n : nat) : Prop :=
  n <= disk_free e
  /\ match files !! path_str (JSON_PATH e) with
     | Some (File _ w _) => w = true
     | Some (Dir _) => False
     | None => files !! path_str (path_parent (JSON_PATH e)) = Some (Dir true)
     end.

(** *** The JSON document, as the specification describes it

    One object with exactly the four fields scaler_mean, scaler_scale,
    lr_coef and lr_intercept, in this order; the three vectors with one
    number per line; two spaces of indentation per level of nesting; no
    newline after the closing brace. *)

(** A number of the document: the default rendering of a finite float,
    and the encoder's names for the three values that are not *)
Definition document_number (x : float) : string :=
  match float_class x with
  | Finite => float_repr x
  | NaN => "NaN"
  | PosInf => "Infinity"
  | NegInf => "-Infinity"
  end.

(** A field name between double quotes *)
Definition quoted (k : string) : string :=
  String dquote k +:+ String dquote EmptyString.

(** The lines of the numbers of a vector: a comma after each but the last *)
Fixpoint item_lines (xs : list string) : list string :=
  match xs with
  | [] => []
  | x :: rest =>
      match rest with
      | [] => ["    " +:+ x]
      | _ :: _ => ("    " +:+ x +:+ ",") :: item_lines rest
      end
  end.

(** The lines of a vector field that another field follows *)
Definition array_lines (key : string) (xs : list string) : list string :=
  match xs with
  | [] => ["  " +:+ quoted key +:+ ": [],"]
  | _ :: _ => ("  " +:+ quoted key +:+ ": [") :: item_lines xs ++ ["  ],"]
  end.

Definition document_lines (a : artifact) : list string :=
  ["{"]
  ++ array_lines "scaler_mean" (map document_number (mean a))
  ++ array_lines "scaler_scale" (map document_number (scale a))
  ++ array_lines "lr_coef" (map document_number (coef a))
  ++ [ "  " +:+ quoted "lr_intercept" +:+ ": " +:+ document_number (intercept a);
       "}" ].

Definition document_text (a : artifact) : string :=
  join nl (document_lines a).

(** The extracted parameter set: four named entries, in this order *)
Definition parameter_set (m s c : plain float) (b : float) : list (string * plain float) :=
  [ ("scaler_mean", m); ("scaler_scale", s); ("lr_coef", c); ("lr_intercept", PFloat b) ].

(** A flat list of floats *)
Definition flat (xs : list float) : plain float := PList (map PFloat xs).

(** The parameter set of the numbers [a] *)
Definition params_of (a : artifact) : list (string * plain float) :=
  parameter_set (flat (mean a)) (flat (scale a)) (flat (coef a)) (intercept a).

(** The five lines lines 38 to 42 print for a parameter set *)
Definition printed_lines (m s c : plain float) (b : float) : list string :=
  [ banner;
    "let SCALER_MEAN  = " +:+ py_repr m +:+ ";";
    "let SCALER_SCALE = " +:+ py_repr s +:+ ";";
    "let LR_COEF      = " +:+ py_repr c +:+ ";";
    "let LR_INTERCEPT  = " +:+ float_repr b +:+ ";" ].

(** One [print] to standard output per line *)
Definition print_events (ls : list string) : list event :=
  map (fun l => EvPrint Stdout (l +:+ nl)) ls.

(** The five lines of standard output for the numbers [a] *)
Definition report_lines (a : artifact) : list string :=
  [ banner;
    let_statement "SCALER_MEAN" 2 (vector_text (mean a));
    let_statement "SCALER_SCALE" 1 (vector_text (scale a));
    let_statement "LR_COEF" 6 (vector_text (coef a));
    let_statement "LR_INTERCEPT" 2 (float_repr (intercept a)) ].

(** Lines, each ended by a newline *)
Fixpoint unlines (ls : list string) : string :=
  match ls with
  | [] => EmptyString
  | l :: ls' => l +:+ nl +:+ unlines ls'
  end.

(** The parameter set the script extracts from the file at the fixed path,
    when it gets that far *)
Definition loaded (e : env) (files : gmap string (node float))
  : option (list (string * plain float)) :=
  match files !! path_str (PKL_PATH e) with
  | Some (File true _ (Pickled model)) =>
      match extract model with
      | Ok params => Some params
      | Raise _ => None
      end
  | _ => None
  end.

(** The text of the report for what was loaded, nothing when nothing was *)
Definition report_text (params : option (list (string * plain float))) : string :=
  match params with
  | Some [(_, m); (_, s); (_, c); (_, PFloat b)] => unlines (printed_lines m s c b)
  | _ => EmptyString
  end.

(** [SystemExit] is the one exception that ends the process without a
    stack trace. *)
Definition is_exit (ex : exn) : bool :=
  match ex with
  | SystemExit _ => true
  | _ => false
  end.

(** The object [obj] lacks the attribute [name]. *)
Definition lacks (obj : pyval float) (name : string) : Prop :=
  exists ex, getattr obj name = Raise ex.

(** The object has no element [i]: subscripting it with [i] fails. *)
Definition no_element (model : pyval float) (i : nat) : Prop :=
  exists ex, getitem model i = Raise ex.

(** An object without an element 0 or without an element 1, or whose
    elements 0 and 1 lack one of the four attributes *)
Definition malformed (model : pyval float) : Prop :=
  no_element model 0
  \/ no_element model 1
  \/ exists scaler lr,
       getitem model 0 = Ok scaler /\ getitem model 1 = Ok lr
       /\ (lacks scaler "mean_" \/ lacks scaler "scale_"
           \/ lacks lr "coef_" \/ lacks lr "intercept_").

(** Deserializing the content raises an error, or yields a malformed
    object. *)
Definition unusable (c : content float) : Prop :=
  (exists ex, pickle_load c = Raise ex /\ is_exit ex = false)
  \/ exists model, c = Pickled model /\ malformed model.

(** The run ended in the exception [ex] that nobody caught: the stack
    trace is the last thing that happened. *)
Definition uncaught (o : outcome float) (ex : exn) : Prop :=
  exists tr, trace (final o) = tr ++ [EvTraceback ex]
             /\ Forall (fun ev => event_text Stderr ev = EmptyString) tr.

(** The events of a trace before the first attempt to open a file for writing *)
Fixpoint before_open_write (tr : list event) : list event :=
  match tr with
  | [] => []
  | EvOpen _ ModeWrite :: _ => []
  | ev :: tr' => ev :: before_open_write tr'
  end.

Definition opens_for_writing (ev : event) : bool :=
  match ev with
  | EvOpen _ ModeWrite => true
  | _ => false
  end.

(** A line of the kind line 48 prints *)
Definition is_confirmation (ev : event) : bool :=
  match ev with
  | EvPrint Stderr text => String.prefix (nl +:+ "Also wrote") text
  | _ => false
  end.

End Vocabulary.
Arguments artifact float : clear implicits.

(** ** Further vocabulary: how a run can end *)

Section Endings.

Context {float : Type} {R : Runtime float}.

(** What is at the fixed path is nothing, a directory, or a pickle of
    plain data: no bytes that [pickle.load] fails on or runs as a program
    with effects of its own. *)
Definition data_input (e : env) (files : gmap string (node float)) : Prop :=
  match files !! path_str (PKL_PATH e) with
  | Some (File _ _ (Raw _)) => False
  | _ => True
  end.

(** An access to the file system that is one of the two the script makes:
    the fixed path opened for reading, the JSON path opened for writing
    and written to. *)
Definition intended_access (e : env) (ev : event) : Prop :=
  match ev with
  | EvOpen p ModeRead => p = path_str (PKL_PATH e)
  | EvOpen p ModeWrite => p = path_str (JSON_PATH e)
  | EvWrite p _ => p = path_str (JSON_PATH e)
  | EvPrint _ _ | EvTraceback _ => True
  end.

(** What opening the JSON document (line 46) can raise *)
Definition raised_opening (e : env) (ex : exn) : Prop :=
  ex = IsADirectoryError (path_str (JSON_PATH e))
  \/ ex = PermissionError (path_str (JSON_PATH e))
  \/ ex = NotADirectoryError (path_str (JSON_PATH e))
  \/ ex = FileNotFoundError (path_str (JSON_PATH e)).

(** The JSON document cannot be opened for writing: a directory is in its
    place, or a file that may not be written, or it is absent and its
    directory is missing or may not be written. *)
Definition json_blocked (e : env) (files : gmap string (node float)) : Prop :=
  match files !! path_str (JSON_PATH e) with
  | Some (Dir _) => True
  | Some (File _ w _) => w = false
  | None => files !! path_str (path_parent (JSON_PATH e)) <> Some (Dir true)
  end.



(** The last thing that happened *)
Definition last_event (tr : list event) : option event :=
  List.last (map Some tr) None.

(** The events of lines 20 to 42 for a parameter set *)
Definition report_events (e : env) (m s c : plain float) (b : float) : list event :=
  EvOpen (path_str (PKL_PATH e)) ModeRead :: print_events (printed_lines m s c b).

End Endings.

(** ** A concrete runtime

    Python floats, each presented by the decimal that [repr] prints for it:
    a finite binary64 has exactly one shortest decimal that reads back as
    it, and [DNum neg m e] is the value whose shortest decimal is
    [m * 10^e] ([m] not a multiple of ten).  The rendering below is the
    layout rule of [float.__repr__]: fixed notation while the decimal point
    sits between the fourth place before and the sixteenth place after the
    first digit, the exponent form otherwise. *)

Module Decimal.

Inductive dfloat :=
| DNan
| DInf (neg : bool)
| DZero (neg : bool)
| DNum (neg : bool) (m : positive) (e : Z).

Definition sign_text (neg : bool) : string :=
  if neg then "-" else EmptyString.

Definition digits (n : N) : string :=
  NilZero.string_of_uint (N.to_uint n).

Definition zeros (n : Z) : string :=
  replicate_char (Z.to_nat n) "0"%char.

(** Digits [ds] with the decimal point [decpt] places after the first *)
Definition fixed (ds : string) (decpt : Z) : string :=
  let n := Z.of_nat (String.length ds) in
  if (decpt <=? 0)%Z then "0." +:+ zeros (- decpt) +:+ ds
  else if (n <=? decpt)%Z then ds +:+ zeros (decpt - n) +:+ ".0"
  else substring 0 (Z.to_nat decpt) ds +:+ "."
       +:+ substring (Z.to_nat decpt) (Z.to_nat (n - decpt)) ds.

Definition exponent_text (x : Z) : string :=
  let ds := digits (Z.abs_N x) in
  (if (x <? 0)%Z then "-" else "+")
  +:+ (if String.length ds <? 2 then "0" +:+ ds else ds).

Definition scientific (ds : string) (decpt : Z) : string :=
  match ds with
  | EmptyString => EmptyString
  | String d EmptyString => String d ("e" +:+ exponent_text (decpt - 1))
  | String d rest => String d ("." +:+ rest +:+ "e" +:+ exponent_text (decpt - 1))
  end.

Definition repr (x : dfloat) : string :=
  match x with
  | DNan => "nan"
  | DInf neg => sign_text neg +:+ "inf"
  | DZero neg => sign_text neg +:+ "0.0"
  | DNum neg m e =>
      let ds := digits (Npos m) in
      let decpt := (Z.of_nat (String.length ds) + e)%Z in
      sign_text neg +:+
      (if ((-4 <? decpt) && (decpt <=? 16))%Z then fixed ds decpt
       else scientific ds decpt)
  end.

Definition classify (x : dfloat) : float_kind :=
  match x with
  | DNan => NaN
  | DInf false => PosInf
  | DInf true => NegInf
  | _ => Finite
  end.

(** [float(s)] on the decimal literals *)
Definition natural (s : string) : option N :=
  match NilEmpty.uint_of_string s with
  | Some u => Some (N.of_uint u)
  | None => None
  end.

Definition integer (s : string) : option Z :=
  match s with
  | String "-" s' => if nonempty s' then option_map (fun n => (- Z.of_N n)%Z) (natural s') else None
  | String "+" s' => if nonempty s' then option_map Z.of_N (natural s') else None
  | _ => if nonempty s then option_map Z.of_N (natural s) else None
  end.

(** Trailing zeros moved from the digits to the exponent *)
Fixpoint strip_zeros (fuel : nat) (m : Z) (e : Z) : Z * Z :=
  match fuel with
  | O => (m, e)
  | S fuel' =>
      if (m mod 10 =? 0)%Z then strip_zeros fuel' (m / 10)%Z (e + 1)%Z
      else (m, e)
  end.

Definition of_digits (neg : bool) (ds : string) (e : Z) : option dfloat :=
  match natural ds with
  | Some N0 => Some (DZero neg)
  | Some n =>
      match strip_zeros (String.length ds) (Z.of_N n) e with
      | (Zpos m, e') => Some (DNum neg m e')
      | _ => None
      end
  | None => None
  end.

Definition mantissa (neg : bool) (s : string) (x : Z) : option dfloat :=
  match fields (Ascii.eqb ".") EmptyString s with
  | [i] => if nonempty i then of_digits neg i x else None
  | [i; f] =>
      if nonempty i || nonempty f
      then of_digits neg (i +:+ f) (x - Z.of_nat (String.length f))%Z
      else None
  | _ => None
  end.

Definition unsigned (neg : bool) (s : string) : option dfloat :=
  if String.eqb s "nan" || String.eqb s "NaN" then Some DNan
  else if String.eqb s "inf" || String.eqb s "Infinity" then Some (DInf neg)
  else
    match fields (fun c => Ascii.eqb c "e" || Ascii.eqb c "E") EmptyString s with
    | [m] => mantissa neg m 0
    | [m; x] =>
        match integer x with
        | Some x' => mantissa neg m x'
        | None => None
        end
    | _ => None
    end.

Definition parse (s : string) : option dfloat :=
  match s with
  | String "-" s' => unsigned true s'
  | String "+" s' => unsigned false s'
  | _ => unsigned false s
  end.

Definition exn_name (e : exn) : string :=
  match e with
  | SystemExit _ => "SystemExit"
  | FileNotFoundError _ => "FileNotFoundError"
  | IsADirectoryError _ => "IsADirectoryError"
  | NotADirectoryError _ => "NotADirectoryError"
  | PermissionError _ => "PermissionError"
  | NoSpaceLeft _ => "OSError"
  | EOFError => "EOFError"
  | UnpicklingError => "_pickle.UnpicklingError"
  | OtherError name => name
  | TypeError => "TypeError"
  | IndexError => "IndexError"
  | KeyError _ => "KeyError"
  | AttributeError _ => "AttributeError"
  | ValueError => "ValueError"
  end.

Definition stack_trace (e : exn) : string :=
  "Traceback (most recent call last):" +:+ nl +:+ exn_name e +:+ nl.

(** [pickle.load] on text: nothing to read in an empty file, and a first
    character that is no opcode otherwise (an opening brace, say). *)
Definition load_text (bytes : string) : load_failure :=
  match bytes with
  | EmptyString => LoadEOF
  | String _ _ => LoadUnpickling
  end.

End Decimal.

#[export] Instance decimal_runtime : Runtime Decimal.dfloat := {|
  float_repr := Decimal.repr;
  float_class := Decimal.classify;
  float_parse := Decimal.parse;
  traceback := Decimal.stack_trace;
  unpickle_error := Decimal.load_text;
|}.

(** ** The scenarios of the specification *)

Module Scenario.
Import Decimal.

(** mean = [0.1, 0.2, 0.3], scale = [1.0, 1.1, 1.2],
    coef = [0.5, -0.3, 0.2], intercept = -1.4 *)
Definition numbers : artifact dfloat := {|
  mean := [DNum false 1 (-1); DNum false 2 (-1); DNum false 3 (-1)];
  scale := [DNum false 1 0; DNum false 11 (-1); DNum false 12 (-1)];
  coef := [DNum false 5 (-1); DNum true 3 (-1); DNum false 2 (-1)];
  coef_rest := [];
  intercept := DNum true 14 (-1);
  intercept_rest := [];
|}.

Definition scaler (a : artifact dfloat) : pyval dfloat :=
  VObject [ ("with_mean", VNone);
            ("mean_", vector (mean a));
            ("var_", vector (scale a));
            ("scale_", vector (scale a)) ].

Definition classifier (a : artifact dfloat) : pyval dfloat :=
  VObject [ ("C", VFloat (DNum false 1 0));
            ("coef_", matrix (coef a :: coef_rest a));
            ("intercept_", vector (intercept a :: intercept_rest a)) ].

Definition pipeline (a : artifact dfloat) : pyval dfloat :=
  VPipeline [ ("standardscaler", scaler a); ("logisticregression", classifier a) ].

Definition script_file : path := Path true ["repo"; "extract_xg_model.py"].

Definition plain_run : env := Env ["extract_xg_model.py"] script_file 4096.
Definition json_run : env := Env ["extract_xg_model.py"; "--json"] script_file 4096.

(** The same invocation on a disk with room for sixteen bytes *)
Definition cramped_run : env := Env ["extract_xg_model.py"; "--json"] script_file 16.

(** The repository directory with a pickle of [model] in it *)
Definition disk (model : pyval dfloat) : gmap string (node dfloat) :=
  {[ "/repo" := Dir true;
     "/repo/xg_model.pkl" := File true false (Pickled model) ]}.

(** The repository directory before any model was trained *)
Definition empty_disk : gmap string (node dfloat) :=
  {[ "/repo" := Dir true ]}.

(** The same, with a directory where the JSON document should go *)
Definition blocked_disk (model : pyval dfloat) : gmap string (node dfloat) :=
  <[ "/repo/xg_model_params.json" := Dir true ]> (disk model).

(** A dict that holds the two estimators under the keys 0 and 1, and one
    that holds them under their names *)
Definition keyed : pyval dfloat :=
  VDict [ (KInt 0, scaler numbers); (KInt 1, classifier numbers) ].

Definition named : pyval dfloat :=
  VDict [ (KStr "scaler", scaler numbers); (KStr "lr", classifier numbers) ].

(** A pipeline with a third stage after the classifier *)
Definition three_stages : pyval dfloat :=
  VPipeline [ ("standardscaler", scaler numbers);
              ("logisticregression", classifier numbers);
              ("extra", VNone) ].

(** A pipeline that lost its scaler: the classifier is its only stage *)
Definition no_scaler : pyval dfloat :=
  VPipeline [ ("logisticregression", classifier numbers) ].

(** A three-class classifier: three rows, three intercepts *)
Definition multiclass : artifact dfloat := {|
  mean := mean numbers;
  scale := scale numbers;
  coef := coef numbers;
  coef_rest := [ [DNum false 7 0; DNum false 8 0; DNum false 9 0];
                 [DNum true 7 0; DNum true 8 0; DNum true 9 0] ];
  intercept := intercept numbers;
  intercept_rest := [DNum false 25 (-2); DNum false 1 (-5)];
|}.

End Scenario.

(** ** Inputs at the edges *)

Module Edge.
Import Decimal Scenario.


(** The flag among arguments the script does not know *)
Definition noisy_run : env :=
  Env ["extract_xg_model.py"; "--verbose"; "--json"; "out.txt"] script_file 4096.



End Edge.

(** ** Proof automation *)

(** Case analysis on a scrutinee of [H] that holds no other [match] *)
Ltac innermost_case H :=
  match type of H with
  | context [match ?x with _ => _ end] =>
      lazymatch x with
      | context [match _ with _ => _ end] => fail
      | _ => destruct x eqn:?; try discriminate
      end
  end.

(** * Properties *)

(** ** Text *)

Lemma append_nil_r (s : string) : s +:+ EmptyString = s.
Proof. induction s as [|c s IH]; simpl; [reflexivity | now rewrite IH]. Qed.

Lemma append_assoc (a b c : string) : (a +:+ b) +:+ c = a +:+ (b +:+ c).
Proof. induction a as [|x a IH]; simpl; [reflexivity | now rewrite IH]. Qed.

Lemma chars_append (a b : string) : chars (a +:+ b) = chars a ++ chars b.
Proof. induction a as [|x a IH]; simpl; [reflexivity | now rewrite IH]. Qed.

Lemma free_of_append d (a b : string) :
  free_of d (a +:+ b) = free_of d a && free_of d b.
Proof. unfold free_of. rewrite chars_append. apply forallb_app. Qed.

(** A piece without separators joins the piece already begun. *)
Lemma fields_free d (t : string) : forall cur s,
  free_of d t = true ->
  fields d cur (t +:+ s) = fields d (cur +:+ t) s.
Proof.
  induction t as [|c t IH]; intros cur s H; simpl.
  - now rewrite append_nil_r.
  - unfold free_of in H. simpl in H. apply andb_true_iff in H as [Hc Ht].
    apply negb_true_iff in Hc. rewrite Hc.
    rewrite IH by exact Ht. unfold snoc. now rewrite append_assoc.
Qed.

Lemma tokens_from_free d (t : string) : forall cur s,
  free_of d t = true ->
  tokens_from d cur (t +:+ s) = tokens_from d (cur +:+ t) s.
Proof.
  induction t as [|c t IH]; intros cur s H; simpl.
  - now rewrite append_nil_r.
  - unfold free_of in H. simpl in H. apply andb_true_iff in H as [Hc Ht].
    apply negb_true_iff in Hc. rewrite Hc.
    rewrite IH by exact Ht. unfold snoc. now rewrite append_assoc.
Qed.

(** Separators between tokens are skipped. *)
Lemma tokens_from_skip d (sep : string) : forall s,
  made_of d sep = true ->
  tokens_from d EmptyString (sep +:+ s) = tokens_from d EmptyString s.
Proof.
  induction sep as [|c sep IH]; intros s H; simpl; [reflexivity |].
  unfold made_of in H. simpl in H. apply andb_true_iff in H as [Hc Hs].
  rewrite Hc. simpl. now apply IH.
Qed.

(** A token followed by a separator *)
Lemma tokens_from_token d (t : string) c s :
  free_of d t = true -> nonempty t = true -> d c = true ->
  tokens_from d EmptyString (t +:+ String c s) = t :: tokens_from d EmptyString s.
Proof.
  intros Hf Hn Hc. rewrite tokens_from_free by exact Hf. simpl.
  rewrite Hc. unfold flush. now rewrite Hn.
Qed.

(** The tokens of items joined by separators and followed by one *)
Lemma tokens_from_join d (sep : string) c (ts : list string) s :
  made_of d sep = true -> nonempty sep = true -> d c = true ->
  Forall (fun t => free_of d t = true /\ nonempty t = true) ts ->
  tokens_from d EmptyString (join sep ts +:+ String c s)
  = ts ++ tokens_from d EmptyString s.
Proof.
  intros Hsep Hne Hc Hts. induction Hts as [|t ts [Hf Hn] Hts IH].
  - simpl. now rewrite Hc.
  - destruct ts as [|t' ts].
    + simpl. now apply tokens_from_token.
    + change (join sep (t :: t' :: ts)) with (t +:+ sep +:+ join sep (t' :: ts)).
      rewrite !append_assoc.
      destruct sep as [|c' sep]; [discriminate |].
      unfold made_of in Hsep. simpl in Hsep.
      apply andb_true_iff in Hsep as [Hc' Hsep].
      change (String c' sep +:+ ?x) with (String c' (sep +:+ x)).
      simpl String.append at 2.
      rewrite tokens_from_token by assumption.
      rewrite tokens_from_skip by exact Hsep.
      simpl. f_equal. exact IH.
Qed.

(** ** The script, step by step *)

Section Properties.

Context {float : Type} {R : Runtime float}.

Implicit Types (e : env) (files : gmap string (node float)) (a : artifact float).
Implicit Types (model : pyval float) (st : state float).

Lemma stream_text_app (s : stream) (tr1 tr2 : list event) :
  stream_text s (tr1 ++ tr2) = stream_text s tr1 +:+ stream_text s tr2.
Proof.
  induction tr1 as [|ev tr1 IH]; simpl; [reflexivity |].
  now rewrite IH, append_assoc.
Qed.

Lemma removelast_snoc {A} (l : list A) (x : A) : removelast (l ++ [x]) = l.
Proof. apply removelast_last. Qed.

(** [with_name] on the fixed path never fails: the path has a name. *)
Lemma path_with_name_pkl e (name : string) :
  path_with_name (PKL_PATH e) name = Ok (path_div (path_parent (script e)) name).
Proof.
  unfold path_with_name, PKL_PATH, path_div. simpl.
  destruct (removelast (parts (script e)) ++ ["xg_model.pkl"]) eqn:E.
  - now apply app_eq_nil in E as [_ E].
  - rewrite <- E, removelast_snoc. reflexivity.
Qed.

Lemma tolist_vector (xs : list float) : tolist (vector xs) = Ok (flat xs).
Proof. unfold vector, flat. simpl. now rewrite map_map. Qed.

Lemma py_repr_flat (xs : list float) : py_repr (flat xs) = vector_text xs.
Proof. unfold flat, vector_text. simpl. now rewrite map_map. Qed.

(** The two stages of a two-element sequence *)
Lemma stages_two model (scaler lr : pyval float) :
  stages model = Some [scaler; lr] ->
  getitem model 0 = Ok scaler /\ getitem model 1 = Ok lr.
Proof.
  destruct model as [| | items | | |steps|]; simpl; try discriminate.
  - intros [= ->]. now split.
  - intros [= E]. destruct steps as [|[n1 s1] [|[n2 s2] [|]]]; try discriminate.
    simpl in E. injection E as -> ->. now split.
Qed.

(** Lines 28 to 36 on a pipeline that holds the numbers [a] *)
Lemma extract_holds model a : holds model a -> extract model = Ok (params_of a).
Proof.
  intros (scaler & lr & Hst & Hm & Hs & Hc & Hb).
  apply stages_two in Hst as [H0 H1].
  unfold extract, exposes in *.
  rewrite H0, H1. cbn [rbind]. rewrite Hm, Hs, Hc, Hb. cbn [rbind].
  rewrite !tolist_vector. cbn [rbind]. simpl. now rewrite map_map.
Qed.

(** Whatever [extract] returns has the four entries, in order. *)
Lemma extract_shape model (params : list (string * plain float)) :
  extract model = Ok params ->
  exists m s c b, params = parameter_set m s c b.
Proof.
  unfold extract, rbind. intros H.
  repeat match type of H with
         | context [match ?x with _ => _ end] => destruct x; try discriminate
         end.
  injection H as <-. eauto.
Qed.

Lemma report_lines_printed a :
  report_lines a
  = printed_lines (flat (mean a)) (flat (scale a)) (flat (coef a)) (intercept a).
Proof. unfold report_lines, printed_lines. now rewrite !py_repr_flat. Qed.

(** Lines 20 to 42 when the file is there and [extract] succeeds *)
Lemma main_reports e files (w : bool) model (m s c : plain float) (b : float) :
  files !! path_str (PKL_PATH e) = Some (File true w (Pickled model)) ->
  extract model = Ok (parameter_set m s c b) ->
  main e (State files [])
  = emit_json e (parameter_set m s c b)
      (State files (EvOpen (path_str (PKL_PATH e)) ModeRead
                    :: print_events (printed_lines m s c b))).
Proof.
  intros Hf Hx. unfold main, bind, path_exists, open_read, bind, emit, lift. simpl.
  rewrite Hf. simpl. rewrite Hf. simpl. rewrite Hx. reflexivity.
Qed.

(** Lines 44 to 48 leave standard output alone, however they end. *)
Lemma emit_json_stdout e (params : list (string * plain float)) st :
  stdout (interpreter_exit (emit_json e params st)) = stream_text Stdout (trace st).
Proof.
  unfold emit_json, stdout.
  destruct (list_contains "--json" (argv e)); [| reflexivity].
  rewrite path_with_name_pkl.
  unfold bind, lift, open_write, file_write, print, bind, emit. simpl.
  repeat case_match; simplify_eq; simpl;
    rewrite ?stream_text_app; simpl; rewrite ?append_nil_r; reflexivity.
Qed.

Lemma stream_text_print_events (ls : list string) :
  stream_text Stdout (print_events ls) = unlines ls.
Proof.
  induction ls as [|l ls IH]; [reflexivity |].
  cbn [print_events map stream_text event_text unlines].
  fold (print_events ls). now rewrite IH, append_assoc.
Qed.

Lemma stream_text_stderr_print_events (ls : list string) :
  stream_text Stderr (print_events ls) = EmptyString.
Proof. induction ls as [|l ls IH]; [reflexivity | exact IH]. Qed.

(** Standard output of a run that reaches the report *)
Lemma run_stdout_reports e files (w : bool) model (m s c : plain float) (b : float) :
  files !! path_str (PKL_PATH e) = Some (File true w (Pickled model)) ->
  extract model = Ok (parameter_set m s c b) ->
  stdout (run e files) = unlines (printed_lines m s c b).
Proof.
  intros Hf Hx. unfold run. rewrite (main_reports _ _ _ _ _ _ _ _ Hf Hx).
  rewrite emit_json_stdout. cbn [trace stream_text event_text].
  now rewrite stream_text_print_events.
Qed.

Lemma free_of_join d (sep : string) (ts : list string) :
  free_of d sep = true ->
  Forall (fun t => free_of d t = true) ts ->
  free_of d (join sep ts) = true.
Proof.
  intros Hsep Hts. induction Hts as [|t ts Ht Hts IH]; [reflexivity |].
  destruct ts as [|t' ts]; [exact Ht |].
  change (join sep (t :: t' :: ts)) with (t +:+ sep +:+ join sep (t' :: ts)).
  now rewrite !free_of_append, Ht, Hsep, IH.
Qed.

Lemma one_line_vector_text (xs : list float) :
  Forall (fun x => one_line (float_repr x) = true) xs ->
  one_line (vector_text xs) = true.
Proof.
  intros H. unfold one_line, vector_text.
  rewrite !free_of_append, free_of_join; [reflexivity | reflexivity |].
  now rewrite Forall_map.
Qed.

Lemma one_line_let_statement (name : string) (pad : nat) (value : string) :
  one_line name = true -> one_line value = true ->
  one_line (let_statement name pad value) = true.
Proof.
  intros Hn Hv. unfold one_line, let_statement in *.
  rewrite !free_of_append, Hn, Hv.
  assert (free_of (Ascii.eqb newline) (replicate_char pad space) = true) as ->.
  { induction pad as [|pad IH]; [reflexivity | exact IH]. }
  reflexivity.
Qed.

(** Splitting a text of complete lines gives the lines back, and an empty
    piece after the last newline. *)
Lemma split_lines_unlines (ls : list string) :
  Forall (fun l => one_line l = true) ls ->
  split_lines (unlines ls) = ls ++ [EmptyString].
Proof.
  unfold split_lines. induction 1 as [|l ls Hl Hls IH]; [reflexivity |].
  cbn [unlines]. rewrite fields_free by exact Hl. simpl. now rewrite IH.
Qed.

Lemma one_line_report_lines a :
  Forall (fun x => one_line (float_repr x) = true) (values a) ->
  Forall (fun l => one_line l = true) (report_lines a).
Proof.
  unfold values. rewrite !Forall_app. intros (Hm & Hs & Hc & Hb).
  apply Forall_inv in Hb.
  repeat constructor;
    try (apply one_line_let_statement;
         [reflexivity | first [now apply one_line_vector_text | exact Hb]]).
Qed.

(** Standard output of a run on a well-formed pipeline file *)
Lemma run_stdout_well_formed e files a :
  well_formed_file e files a ->
  stdout (run e files) = unlines (report_lines a).
Proof.
  intros (w & model & Hf & Hh & _).
  rewrite report_lines_printed.
  apply (run_stdout_reports _ _ w model); [exact Hf |].
  now apply extract_holds.
Qed.

(** C1.  With a well-formed pipeline file at the fixed path, standard
    output is exactly five lines: the banner comment, then four statements
    [let NAME = VALUE;] in which the three vectors render as
    [[v1, v2, ..., vn]], each [vi] in the default textual representation of
    floats, and the intercept renders as a bare number.  (Nothing follows
    the fifth newline.  A float rendering is assumed to fit in a line.) *)
Theorem C1_stdout_five_lines e files a :
  well_formed_file e files a ->
  Forall (fun x => one_line (float_repr x) = true) (values a) ->
  split_lines (stdout (run e files))
  = [ banner;
      let_statement "SCALER_MEAN" 2 (vector_text (mean a));
      let_statement "SCALER_SCALE" 1 (vector_text (scale a));
      let_statement "LR_COEF" 6 (vector_text (coef a));
      let_statement "LR_INTERCEPT" 2 (float_repr (intercept a));
      EmptyString ]
  /\ String.prefix "//" banner = true.
Proof.
  intros Hwf Hline. split; [| reflexivity].
  rewrite (run_stdout_well_formed _ _ _ Hwf).
  now rewrite split_lines_unlines by now apply one_line_report_lines.
Qed.

(** ** The missing file *)

Lemma prefix_append (p s : string) : String.prefix p (p +:+ s) = true.
Proof.
  induction p as [|c p IH]; simpl; [now destruct s |].
  destruct (ascii_dec c c); [exact IH | congruence].
Qed.

Lemma contains_append (p a b : string) : contains p (a +:+ p +:+ b) = true.
Proof.
  induction a as [|c a IH]; simpl.
  - pose proof (prefix_append p b) as H.
    destruct (p +:+ b); cbn [contains]; now rewrite H.
  - rewrite IH. apply orb_true_r.
Qed.

(** C3.  When the pipeline file does not exist, the diagnostic stream
    receives one line that contains the attempted path, the process ends
    with exit status 1, standard output stays empty and no file is created
    or changed. *)
Theorem C3_missing_file e files :
  files !! path_str (PKL_PATH e) = None ->
  stderr (run e files) = not_found (PKL_PATH e) +:+ nl
  /\ contains (path_str (PKL_PATH e)) (stderr (run e files)) = true
  /\ exit_status (run e files) = 1%Z
  /\ stdout (run e files) = EmptyString
  /\ files_after (run e files) = files.
Proof.
  intros Hf.
  assert (run e files
          = Outcome 1 (State files [EvPrint Stderr (not_found (PKL_PATH e) +:+ nl)])) as ->.
  { unfold run, main, bind, path_exists. simpl. now rewrite Hf. }
  unfold stderr, stdout, files_after.
  cbn [final trace fs exit_status stream_text event_text].
  rewrite append_nil_r. repeat split.
  unfold not_found. rewrite !append_assoc. apply contains_append.
Qed.

(** ** The JSON document *)

Lemma list_contains_In (x : string) (l : list string) :
  list_contains x l = true <-> In x l.
Proof.
  unfold list_contains. rewrite existsb_exists. split.
  - intros (y & Hy & E). apply String.eqb_eq in E. now subst.
  - intros H. exists x. split; [exact H | apply String.eqb_refl].
Qed.

(** The input file sits beside the script. *)
Lemma pkl_path_parent e : path_parent (PKL_PATH e) = path_parent (script e).
Proof.
  unfold PKL_PATH, path_parent, path_div. simpl. now rewrite removelast_snoc.
Qed.

(** Lines 44 to 48 with the flag, a target that opens and room on the disk *)
Lemma emit_json_writes e (params : list (string * plain float)) st :
  list_contains "--json" (argv e) = true ->
  json_writable e (fs st) (String.length (json_dumps params)) ->
  exists files',
    emit_json e params st
    = (Ok tt,
       State files'
         (trace st ++ [ EvOpen (path_str (JSON_PATH e)) ModeWrite;
                        EvWrite (path_str (JSON_PATH e)) (json_dumps params);
                        EvPrint Stderr (confirmation (JSON_PATH e) +:+ nl) ]))
    /\ file_text files' (path_str (JSON_PATH e)) = Some (json_dumps params)
    /\ forall p, p <> path_str (JSON_PATH e) -> files' !! p = fs st !! p.
Proof.
  intros Hflag [Hroom Hnode]. unfold emit_json. rewrite Hflag, path_with_name_pkl.
  fold (JSON_PATH e). apply Nat.leb_le in Hroom.
  unfold bind, lift, open_write, file_write, print, bind, emit. cbn [fs trace].
  destruct (fs st !! path_str (JSON_PATH e)) as [[wd|r w c]|] eqn:E.
  - contradiction.
  - subst w. cbn [fs trace]. rewrite lookup_insert_eq, Hroom. cbn [fs trace].
    eexists. split; [| split].
    + rewrite <- !app_assoc. reflexivity.
    + unfold file_text. now rewrite lookup_insert_eq.
    + intros p Hp. now rewrite !lookup_insert_ne by congruence.
  - rewrite Hnode. cbn [fs trace]. rewrite lookup_insert_eq, Hroom. cbn [fs trace].
    eexists. split; [| split].
    + rewrite <- !app_assoc. reflexivity.
    + unfold file_text. now rewrite lookup_insert_eq.
    + intros p Hp. now rewrite !lookup_insert_ne by congruence.
Qed.

(** The confirmation line names the path. *)
Lemma contains_confirmation (p : path) :
  contains (path_str p) (confirmation p +:+ nl) = true.
Proof.
  unfold confirmation.
  rewrite <- (append_assoc nl "Also wrote → " (path_str p)).
  rewrite (append_assoc (nl +:+ "Also wrote → ")).
  apply contains_append.
Qed.

(** A whole run with the flag on a well-formed file *)
Lemma run_json_written e files a :
  list_contains "--json" (argv e) = true ->
  well_formed_file e files a ->
  json_writable e files (String.length (json_dumps (params_of a))) ->
  exists files',
    run e files
    = Outcome 0
        (State files'
           (EvOpen (path_str (PKL_PATH e)) ModeRead
            :: print_events (report_lines a)
            ++ [ EvOpen (path_str (JSON_PATH e)) ModeWrite;
                 EvWrite (path_str (JSON_PATH e)) (json_dumps (params_of a));
                 EvPrint Stderr (confirmation (JSON_PATH e) +:+ nl) ]))
    /\ file_text files' (path_str (JSON_PATH e)) = Some (json_dumps (params_of a))
    /\ forall p, p <> path_str (JSON_PATH e) -> files' !! p = files !! p.
Proof.
  intros Hflag (w & model & Hf & Hh & _) Hw.
  pose proof (extract_holds _ _ Hh) as Hx. unfold params_of in Hx.
  unfold run. rewrite (main_reports _ _ _ _ _ _ _ _ Hf Hx).
  edestruct (emit_json_writes e (params_of a)) as (files' & -> & Ht & Hrest);
    [exact Hflag | exact Hw |].
  exists files'. rewrite report_lines_printed. now repeat split.
Qed.

(** *** The encoding is the document of the specification *)

Lemma join_cons (sep x y : string) (l : list string) :
  join sep (x :: y :: l) = x +:+ sep +:+ join sep (y :: l).
Proof. reflexivity. Qed.

Lemma join_app (sep : string) (l l' : list string) :
  l <> [] -> l' <> [] ->
  join sep (l ++ l') = join sep l +:+ sep +:+ join sep l'.
Proof.
  intros Hl Hl'. induction l as [|x l IH]; [congruence |].
  destruct l as [|y l].
  - destruct l' as [|z l']; [congruence | reflexivity].
  - change ((x :: y :: l) ++ l') with (x :: y :: (l ++ l')).
    rewrite !join_cons.
    change (y :: l ++ l') with ((y :: l) ++ l').
    rewrite IH by discriminate. now rewrite !append_assoc.
Qed.

Lemma item_lines_nonempty (x : string) (xs : list string) : item_lines (x :: xs) <> [].
Proof. destruct xs; discriminate. Qed.

Lemma item_lines_text (xs : list string) : forall x,
  join nl (item_lines (x :: xs))
  = "    " +:+ join ("," +:+ json_newline_indent 2) (x :: xs).
Proof.
  induction xs as [|y ys IH]; intros x; [reflexivity |].
  change (item_lines (x :: y :: ys))
    with (("    " +:+ x +:+ ",") :: item_lines (y :: ys)).
  destruct (item_lines (y :: ys)) as [|l ls] eqn:E;
    [now apply item_lines_nonempty in E |].
  rewrite join_cons, <- E, IH, join_cons.
  cbn [String.append]. rewrite !append_assoc. reflexivity.
Qed.

Lemma quoted_key (k : string) : json_key k = quoted k.
Proof. reflexivity. Qed.

(** A vector field and the comma after it, behind the indentation of a member *)
Lemma array_lines_text (k : string) (xs : list string) :
  join nl (array_lines k xs)
  = "  " +:+ json_key k +:+ ": " +:+ json_block "[" "]" 1 xs +:+ ",".
Proof.
  rewrite quoted_key. destruct xs as [|x xs]; [reflexivity |].
  unfold array_lines, json_block.
  change (("  " +:+ quoted k +:+ ": [") :: item_lines (x :: xs) ++ ["  ],"])
    with ([("  " +:+ quoted k +:+ ": [")] ++ (item_lines (x :: xs) ++ ["  ],"])).
  rewrite join_app; [| discriminate | now destruct (item_lines (x :: xs))].
  rewrite join_app; [| apply item_lines_nonempty | discriminate].
  rewrite item_lines_text.
  cbn [join String.concat String.append json_newline_indent replicate_char Nat.mul Nat.add nl].
  rewrite !append_assoc. cbn [String.append]. reflexivity.
Qed.

Lemma json_value_numbers (xs : list float) :
  json_value 1 (flat xs) = json_block "[" "]" 1 (map document_number xs).
Proof. unfold flat. cbn [json_value]. now rewrite map_map. Qed.

Lemma app_not_nil_l {A} (l l' : list A) : l <> [] -> l ++ l' <> [].
Proof. destruct l; [congruence | discriminate]. Qed.

Lemma array_lines_nonempty (k : string) (xs : list string) : array_lines k xs <> [].
Proof. destruct xs; discriminate. Qed.

(** What [json.dump] writes for the numbers [a] is the document of the
    specification. *)
Lemma json_dumps_document a : json_dumps (params_of a) = document_text a.
Proof.
  unfold document_text, document_lines.
  rewrite join_app; [| discriminate | apply app_not_nil_l, array_lines_nonempty].
  rewrite join_app;
    [| apply array_lines_nonempty | apply app_not_nil_l, array_lines_nonempty].
  rewrite join_app;
    [| apply array_lines_nonempty | apply app_not_nil_l, array_lines_nonempty].
  rewrite join_app; [| apply array_lines_nonempty | discriminate].
  rewrite !array_lines_text, <- !json_value_numbers.
  unfold json_dumps, params_of, parameter_set, json_block, json_member.
  cbn [map fst snd join String.concat json_value json_newline_indent replicate_char
       Nat.mul Nat.add nl].
  rewrite quoted_key.
  change (json_number (intercept a)) with (document_number (intercept a)).
  rewrite !append_assoc. cbn [String.append]. rewrite ?append_assoc. reflexivity.
Qed.

(** C2, as the code has it.  With the flag token anywhere among the
    arguments, a well-formed pipeline file at the fixed path and a JSON
    target that opens for writing with room on the disk for the document,
    the run writes the document of the specification (exactly the four
    fields scaler_mean, scaler_scale, lr_coef and lr_intercept, in this
    order, indented) to the file of the fixed alternate name in the
    directory of the input file, and the confirmation line that names
    this path goes to the diagnostic stream; standard output holds the
    five report lines and nothing else. *)
Theorem C2_json_flag e files a :
  In "--json" (argv e) ->
  well_formed_file e files a ->
  json_writable e files (String.length (document_text a)) ->
  file_text (files_after (run e files)) (path_str (JSON_PATH e))
  = Some (document_text a)
  /\ JSON_PATH e = path_div (path_parent (PKL_PATH e)) "xg_model_params.json"
  /\ stderr (run e files)
     = nl +:+ "Also wrote → " +:+ path_str (JSON_PATH e) +:+ nl
  /\ contains (path_str (JSON_PATH e)) (stderr (run e files)) = true
  /\ stdout (run e files) = unlines (report_lines a)
  /\ exit_status (run e files) = 0%Z.
Proof.
  intros Hflag Hwf Hw. apply list_contains_In in Hflag.
  rewrite <- json_dumps_document in *.
  destruct (run_json_written _ _ _ Hflag Hwf Hw) as (files' & Hrun & Ht & _).
  assert (stderr (run e files) = confirmation (JSON_PATH e) +:+ nl) as Herr.
  { rewrite Hrun. unfold stderr. cbn [final trace stream_text event_text].
    rewrite stream_text_app, stream_text_stderr_print_events.
    cbn [stream_text event_text]. now rewrite append_nil_r. }
  split; [| split; [| split; [| split; [| split]]]].
  - rewrite Hrun. exact Ht.
  - unfold JSON_PATH. now rewrite pkl_path_parent.
  - rewrite Herr. unfold confirmation. now rewrite !append_assoc.
  - rewrite Herr. apply contains_confirmation.
  - now apply run_stdout_well_formed.
  - now rewrite Hrun.
Qed.

(** ** Every way a run can go *)

(** [extract] raises what indexing, attribute access and conversion raise,
    never [SystemExit]. *)
Lemma extract_raises model (ex : exn) :
  extract model = Raise ex -> is_exit ex = false.
Proof.
  unfold extract, rbind, getitem, getattr, tolist, to_float. intros H.
  repeat innermost_case H; injection H as <-; reflexivity.
Qed.

Lemma interpreter_exit_raise (ex : exn) st :
  is_exit ex = false ->
  interpreter_exit (Raise ex, st)
  = Outcome 1 (State (fs st) (trace st ++ [EvTraceback ex])).
Proof. now destruct ex. Qed.

(** Lines 20 to 42: the file is missing, or reading it raises, or the
    report is printed and lines 44 to 48 follow. *)
Lemma main_cases e files :
  (files !! path_str (PKL_PATH e) = None
   /\ main e (State files [])
      = (Raise (SystemExit 1),
         State files [EvPrint Stderr (not_found (PKL_PATH e) +:+ nl)]))
  \/ (exists n ex,
        files !! path_str (PKL_PATH e) = Some n
        /\ loaded e files = None
        /\ is_exit ex = false
        /\ main e (State files [])
           = (Raise ex, State files [EvOpen (path_str (PKL_PATH e)) ModeRead]))
  \/ (exists w model m s c b,
        files !! path_str (PKL_PATH e) = Some (File true w (Pickled model))
        /\ extract model = Ok (parameter_set m s c b)
        /\ main e (State files [])
           = emit_json e (parameter_set m s c b)
               (State files (EvOpen (path_str (PKL_PATH e)) ModeRead
                             :: print_events (printed_lines m s c b)))).
Proof.
  destruct (files !! path_str (PKL_PATH e)) as [n|] eqn:Hf.
  - right.
    assert (forall ex, is_exit ex = false ->
            main e (State files []) = (Raise ex, State files [EvOpen (path_str (PKL_PATH e)) ModeRead]) ->
            loaded e files = None ->
            exists n' ex',
              Some n = Some n' /\ loaded e files = None /\ is_exit ex' = false
              /\ main e (State files [])
                 = (Raise ex', State files [EvOpen (path_str (PKL_PATH e)) ModeRead]))
      as Hraise by (intros; eauto 8).
    assert (forall ex,
            open_read (PKL_PATH e) (State files [])
            = (Raise ex, State files [EvOpen (path_str (PKL_PATH e)) ModeRead]) ->
            main e (State files [])
            = (Raise ex, State files [EvOpen (path_str (PKL_PATH e)) ModeRead]))
      as Hopen.
    { intros ex Ho. unfold main, bind at 1 2 3, path_exists. simpl.
      rewrite Hf. simpl. unfold bind at 1. now rewrite Ho. }
    destruct n as [wd | r w [model | bytes]].
    + left. eapply Hraise; cycle 1.
      * apply Hopen. unfold open_read, bind, emit. simpl. now rewrite Hf.
      * unfold loaded. now rewrite Hf.
      * reflexivity.
    + destruct r.
      * destruct (extract model) as [params | ex] eqn:Hx.
        -- right. destruct (extract_shape _ _ Hx) as (m & s & c & b & ->).
           exists w, model, m, s, c, b. split; [reflexivity | split; [exact Hx |]].
           now apply (main_reports _ _ w model).
        -- left. eapply Hraise; [exact (extract_raises _ _ Hx) | |].
           ++ unfold main, bind, path_exists, open_read, bind, emit, lift. simpl.
              rewrite Hf. simpl. rewrite Hf. simpl. now rewrite Hx.
           ++ unfold loaded. now rewrite Hf, Hx.
      * left. eapply Hraise; cycle 1.
        -- apply Hopen. unfold open_read, bind, emit. simpl. now rewrite Hf.
        -- unfold loaded. now rewrite Hf.
        -- reflexivity.
    + destruct r.
      * left. eapply Hraise; cycle 1.
        -- unfold main, bind, path_exists, open_read, bind, emit, lift. simpl.
           rewrite Hf. simpl. now rewrite Hf.
        -- unfold loaded. now rewrite Hf.
        -- now destruct (unpickle_error bytes).
      * left. eapply Hraise; cycle 1.
        -- apply Hopen. unfold open_read, bind, emit. simpl. now rewrite Hf.
        -- unfold loaded. now rewrite Hf.
        -- reflexivity.
  - left. split; [reflexivity |].
    unfold main, bind, path_exists. simpl. now rewrite Hf.
Qed.

Lemma run_missing e files :
  files !! path_str (PKL_PATH e) = None ->
  run e files
  = Outcome 1 (State files [EvPrint Stderr (not_found (PKL_PATH e) +:+ nl)]).
Proof.
  intros Hf. destruct (main_cases e files) as [[_ Hm] | [(n & ? & Hn & _) | (w & ? & ? & ? & ? & ? & Hn & _)]];
    [| congruence | congruence].
  unfold run. now rewrite Hm.
Qed.

(** A run whose input is there but yields no parameter set ends in an
    exception raised while reading it, before anything is printed. *)
Lemma run_not_loaded e files n :
  files !! path_str (PKL_PATH e) = Some n ->
  loaded e files = None ->
  exists ex,
    is_exit ex = false
    /\ run e files
       = Outcome 1 (State files [ EvOpen (path_str (PKL_PATH e)) ModeRead;
                                  EvTraceback ex ]).
Proof.
  intros Hf Hl.
  destruct (main_cases e files)
    as [[Hn _] | [(n' & ex & _ & _ & Hex & Hm) | (w & model & m & s & c & b & Hn & Hx & _)]].
  - congruence.
  - exists ex. split; [exact Hex |]. unfold run. rewrite Hm.
    now rewrite interpreter_exit_raise.
  - unfold loaded in Hl. rewrite Hn, Hx in Hl. discriminate.
Qed.

(** Lines 44 to 48 without the flag: nothing happens. *)
Lemma emit_json_no_flag e (params : list (string * plain float)) st :
  list_contains "--json" (argv e) = false ->
  emit_json e params st = (Ok tt, st).
Proof. intros H. unfold emit_json. now rewrite H. Qed.

Lemma Forall_print_events (P : event -> Prop) (ls : list string) :
  (forall text, P (EvPrint Stdout text)) -> Forall P (print_events ls).
Proof. intros H. unfold print_events. apply Forall_map, Forall_forall. auto. Qed.

(** C7.  Without the flag token among the arguments no file is created or
    changed, no file is opened for writing, and the diagnostic stream
    receives no confirmation line; with a well-formed pipeline file it
    receives nothing at all and the run succeeds. *)
Theorem C7_no_flag e files :
  ~ In "--json" (argv e) ->
  files_after (run e files) = files
  /\ Forall (fun ev => is_confirmation ev = false /\ opens_for_writing ev = false)
       (trace (final (run e files)))
  /\ (forall a, well_formed_file e files a ->
        stderr (run e files) = EmptyString /\ exit_status (run e files) = 0%Z).
Proof.
  intros Hflag.
  assert (list_contains "--json" (argv e) = false) as Hno.
  { destruct (list_contains "--json" (argv e)) eqn:E; [| reflexivity].
    now apply list_contains_In in E. }
  destruct (main_cases e files)
    as [[Hn _] | [(n & ex & Hn & Hl & _) | (w & model & m & s & c & b & Hn & Hx & Hm)]].
  - rewrite (run_missing _ _ Hn). split; [reflexivity | split].
    + repeat constructor.
    + intros a (w & model & Hf & _). congruence.
  - destruct (run_not_loaded _ _ _ Hn Hl) as (ex' & _ & ->).
    split; [reflexivity | split].
    + repeat constructor.
    + intros a (w & model & Hf & Hh & _). unfold loaded in Hl.
      rewrite Hf, (extract_holds _ _ Hh) in Hl. discriminate.
  - unfold run. rewrite Hm, (emit_json_no_flag _ _ _ Hno).
    split; [reflexivity | split].
    + cbn [interpreter_exit final trace]. constructor; [now split |].
      apply Forall_print_events. now split.
    + intros a _. split; [| reflexivity].
      unfold stderr. cbn [interpreter_exit final trace stream_text event_text].
      apply stream_text_stderr_print_events.
Qed.

(** ** Order of effects *)

Lemma before_open_write_app (tr1 tr2 : list event) (p : string) :
  Forall (fun ev => opens_for_writing ev = false) tr1 ->
  before_open_write (tr1 ++ EvOpen p ModeWrite :: tr2) = tr1.
Proof.
  induction 1 as [|ev tr1 Hev Htr IH]; [reflexivity |].
  destruct ev as [| q [|] | |]; try discriminate; simpl; now rewrite IH.
Qed.

Lemma existsb_opens_app (tr1 tr2 : list event) (p : string) :
  existsb opens_for_writing (tr1 ++ EvOpen p ModeWrite :: tr2) = true.
Proof. rewrite existsb_app. simpl. apply orb_true_r. Qed.

(** Lines 44 to 48 with the flag: the first thing that happens is the
    attempt to open the document, and whatever follows, standard output is
    not written to. *)
Lemma emit_json_flag e (params : list (string * plain float)) st :
  list_contains "--json" (argv e) = true ->
  exists r files' rest,
    emit_json e params st
    = (r, State files' (trace st ++ EvOpen (path_str (JSON_PATH e)) ModeWrite :: rest))
    /\ Forall (fun ev => event_text Stdout ev = EmptyString) rest
    /\ match r with
       | Ok _ => True
       | Raise ex => is_exit ex = false
       end.
Proof.
  intros Hflag. unfold emit_json. rewrite Hflag, path_with_name_pkl.
  fold (JSON_PATH e).
  unfold bind, lift, open_write, file_write, print, bind, emit. cbn [fs trace].
  repeat case_match; simplify_eq; cbn [fs trace];
    rewrite <- ?app_assoc; cbn [app];
    do 3 eexists; (split; [reflexivity | split; [repeat constructor | done]]).
Qed.

(** C10.  With the flag and a well-formed pipeline file, the script
    attempts to open the JSON document only after the five lines went to
    standard output: what standard output received before that attempt is
    the complete report, and it is still exactly that when the run ends,
    whether opening and writing the document succeeded or failed. *)
Theorem C10_report_precedes_json e files a :
  In "--json" (argv e) ->
  well_formed_file e files a ->
  existsb opens_for_writing (trace (final (run e files))) = true
  /\ stream_text Stdout (before_open_write (trace (final (run e files))))
     = unlines (report_lines a)
  /\ stdout (run e files) = unlines (report_lines a).
Proof.
  intros Hflag Hwf. split; [| split]; [| | now apply run_stdout_well_formed].
  all: apply list_contains_In in Hflag.
  all: destruct Hwf as (w & model & Hf & Hh & _).
  all: pose proof (extract_holds _ _ Hh) as Hx; unfold params_of in Hx.
  all: unfold run; rewrite (main_reports _ _ _ _ _ _ _ _ Hf Hx).
  all: edestruct (emit_json_flag e) as (r & files' & rest & -> & _ & Hr);
    [exact Hflag |].
  all: cbn [trace].
  all: assert (exists tail,
         trace (final (interpreter_exit
           (r, State files'
                 ((EvOpen (path_str (PKL_PATH e)) ModeRead
                   :: print_events (printed_lines (flat (mean a)) (flat (scale a))
                                      (flat (coef a)) (intercept a)))
                  ++ EvOpen (path_str (JSON_PATH e)) ModeWrite :: rest))))
         = (EvOpen (path_str (PKL_PATH e)) ModeRead
            :: print_events (report_lines a))
           ++ EvOpen (path_str (JSON_PATH e)) ModeWrite :: tail) as [tail ->]
    by (rewrite report_lines_printed; destruct r as [[]|ex];
        [ eexists; reflexivity
        | rewrite (interpreter_exit_raise _ _ Hr); cbn [final trace];
          rewrite <- app_assoc; eexists; reflexivity ]).
  - apply existsb_opens_app.
  - rewrite before_open_write_app.
    + cbn [stream_text event_text]. apply stream_text_print_events.
    + constructor; [reflexivity |]. now apply Forall_print_events.
Qed.

(** ** What the outputs depend on *)

(** Standard output is a function of what was loaded from the fixed path. *)
Lemma run_stdout e files : stdout (run e files) = report_text (loaded e files).
Proof.
  destruct (main_cases e files)
    as [[Hn _] | [(n & ex & Hn & Hl & _) | (w & model & m & s & c & b & Hn & Hx & _)]].
  - rewrite (run_missing _ _ Hn). unfold loaded. now rewrite Hn.
  - destruct (run_not_loaded _ _ _ Hn Hl) as (ex' & _ & ->). now rewrite Hl.
  - rewrite (run_stdout_reports _ _ _ _ _ _ _ _ Hn Hx).
    unfold loaded. now rewrite Hn, Hx.
Qed.

(** The two fixed names differ, so do the two paths. *)
Lemma join_snoc (sep : string) (l : list string) (x : string) :
  join sep (l ++ [x])
  = match l with
    | [] => EmptyString
    | _ :: _ => join sep l +:+ sep
    end +:+ x.
Proof.
  induction l as [|y l IH]; [reflexivity |].
  destruct l as [|z l].
  { unfold join. cbn [app String.concat]. now rewrite append_assoc. }
  change (join sep ((y :: z :: l) ++ [x]))
    with (y +:+ sep +:+ join sep ((z :: l) ++ [x])).
  rewrite IH.
  change (join sep (y :: z :: l)) with (y +:+ sep +:+ join sep (z :: l)).
  now rewrite !append_assoc.
Qed.

Lemma path_str_snoc (abs : bool) (l : list string) :
  exists prefix, forall y, path_str (Path abs (l ++ [y])) = prefix +:+ y.
Proof.
  unfold path_str. cbn [absolute parts]. destruct abs.
  - eexists. intros y. rewrite join_snoc, <- append_assoc. reflexivity.
  - eexists. intros y.
    destruct (l ++ [y]) eqn:E; [now apply app_eq_nil in E as [_ E] |].
    rewrite <- E, join_snoc. reflexivity.
Qed.

Lemma json_path_not_pkl e : path_str (JSON_PATH e) <> path_str (PKL_PATH e).
Proof.
  unfold JSON_PATH, PKL_PATH, path_div, path_parent. cbn [absolute parts].
  destruct (path_str_snoc (absolute (script e)) (removelast (parts (script e))))
    as [prefix H].
  rewrite !H. intros E. apply String.app_inj in E. discriminate.
Qed.

(** Lines 44 to 48 touch no file but the JSON document. *)
Lemma emit_json_frame e (params : list (string * plain float)) st (p : string) :
  p <> path_str (JSON_PATH e) ->
  files_after (interpreter_exit (emit_json e params st)) !! p = fs st !! p.
Proof.
  intros Hp. unfold emit_json, files_after.
  destruct (list_contains "--json" (argv e)); [| reflexivity].
  rewrite path_with_name_pkl. fold (JSON_PATH e).
  unfold bind, lift, open_write, file_write, print, bind, emit. cbn [fs trace].
  repeat case_match; simplify_eq; cbn [interpreter_exit final fs trace];
    rewrite ?lookup_insert_ne by congruence; reflexivity.
Qed.

(** A run leaves every file but the JSON document as it found it, the
    input file among them. *)
Lemma run_frame e files (p : string) :
  p <> path_str (JSON_PATH e) -> files_after (run e files) !! p = files !! p.
Proof.
  intros Hp.
  destruct (main_cases e files)
    as [[Hn _] | [(n & ex & Hn & Hl & _) | (w & model & m & s & c & b & Hn & Hx & Hm)]].
  - now rewrite (run_missing _ _ Hn).
  - now destruct (run_not_loaded _ _ _ Hn Hl) as (ex' & _ & ->).
  - unfold run. rewrite Hm. now rewrite emit_json_frame.
Qed.

Lemma run_keeps_input e files :
  files_after (run e files) !! path_str (PKL_PATH e) = files !! path_str (PKL_PATH e).
Proof. apply run_frame. intros E. now apply (json_path_not_pkl e). Qed.

(** A run with the flag that succeeds has written the encoding of what it
    loaded. *)
Lemma run_json_text e files :
  list_contains "--json" (argv e) = true ->
  exit_status (run e files) = 0%Z ->
  exists params,
    loaded e files = Some params
    /\ file_text (files_after (run e files)) (path_str (JSON_PATH e))
       = Some (json_dumps params).
Proof.
  intros Hflag Hexit.
  destruct (main_cases e files)
    as [[Hn _] | [(n & ex & Hn & Hl & _) | (w & model & m & s & c & b & Hn & Hx & Hm)]].
  - rewrite (run_missing _ _ Hn) in Hexit. discriminate.
  - destruct (run_not_loaded _ _ _ Hn Hl) as (ex' & _ & E).
    rewrite E in Hexit. discriminate.
  - exists (parameter_set m s c b). split.
    { unfold loaded. now rewrite Hn, Hx. }
    revert Hexit. unfold run. rewrite Hm. unfold emit_json.
    rewrite Hflag, path_with_name_pkl. fold (JSON_PATH e).
    unfold bind, lift, open_write, file_write, print, bind, emit. cbn [fs trace].
    unfold file_text, files_after.
    repeat case_match; simplify_eq; cbn [interpreter_exit final fs trace exit_status];
      intros; try discriminate; simplify_map_eq; reflexivity.
Qed.

(** Lines 44 to 48 on the files they left do what they did. *)
Lemma emit_json_again e (params : list (string * plain float))
    (files : gmap string (node float)) (tr : list event) :
  emit_json e params
    (State (fs (snd (emit_json e params (State files tr)))) tr)
  = emit_json e params (State files tr).
Proof.
  unfold emit_json.
  destruct (list_contains "--json" (argv e)); [| reflexivity].
  rewrite path_with_name_pkl. fold (JSON_PATH e).
  unfold bind, lift, open_write, file_write, print, bind, emit. cbn [fs trace].
  destruct (files !! path_str (JSON_PATH e)) as [[wd | r [|] c] |] eqn:E;
    cbn [fs trace snd]; rewrite ?E; cbn [fs trace snd].
  - reflexivity.
  - rewrite !lookup_insert_eq.
    destruct (String.length (json_dumps params) <=? disk_free e);
      cbn [fs trace snd]; rewrite !lookup_insert_eq; cbn [fs trace snd];
      rewrite !lookup_insert_eq, !insert_insert_eq; reflexivity.
  - reflexivity.
  - destruct (files !! path_str (path_parent (JSON_PATH e))) as [[[|] | r w c] |] eqn:P;
      cbn [fs trace snd]; rewrite ?E, ?P; cbn [fs trace snd]; try reflexivity.
    rewrite !lookup_insert_eq.
    destruct (String.length (json_dumps params) <=? disk_free e);
      cbn [fs trace snd]; rewrite !lookup_insert_eq; cbn [fs trace snd];
      rewrite !lookup_insert_eq, !insert_insert_eq; reflexivity.
Qed.

Lemma files_after_exit (r : result unit * state float) :
  files_after (interpreter_exit r) = fs (snd r).
Proof. now destruct r as [[[]|[]] st]. Qed.

(** A second invocation on the files the first one left ends as the first
    one did, in every respect. *)
Lemma run_again e files : run e (files_after (run e files)) = run e files.
Proof.
  destruct (main_cases e files)
    as [[Hn _] | [(n & ex & Hn & Hl & _) | (w & model & m & s & c & b & Hn & Hx & Hm)]].
  - rewrite (run_missing _ _ Hn). unfold files_after. cbn [final fs].
    exact (run_missing _ _ Hn).
  - destruct (run_not_loaded _ _ _ Hn Hl) as (ex' & _ & E).
    rewrite E. unfold files_after. cbn [final fs]. exact E.
  - pose proof (run_keeps_input e files) as Hkeep. rewrite Hn in Hkeep.
    unfold run at 1. rewrite (main_reports _ _ _ _ _ _ _ _ Hkeep Hx).
    unfold run. rewrite Hm, files_after_exit. now rewrite emit_json_again.
Qed.

(** C6.  Two invocations that find the same thing at the fixed path (the
    arguments, the other files, even the directory may differ) put the
    same bytes on standard output, and when both are given the flag and
    both succeed, the two JSON documents hold the same bytes; an invocation
    repeated on the files the previous one left ends exactly as the
    previous one did: same output on both streams, same exit status, same
    files, the JSON document among them. *)
Theorem C6_deterministic e1 e2 (files1 files2 : gmap string (node float)) :
  files1 !! path_str (PKL_PATH e1) = files2 !! path_str (PKL_PATH e2) ->
  stdout (run e1 files1) = stdout (run e2 files2)
  /\ (In "--json" (argv e1) -> In "--json" (argv e2) ->
      exit_status (run e1 files1) = 0%Z -> exit_status (run e2 files2) = 0%Z ->
      exists text,
        file_text (files_after (run e1 files1)) (path_str (JSON_PATH e1)) = Some text
        /\ file_text (files_after (run e2 files2)) (path_str (JSON_PATH e2)) = Some text)
  /\ run e1 (files_after (run e1 files1)) = run e1 files1.
Proof.
  intros Hsame.
  assert (loaded e1 files1 = loaded e2 files2) as Hl
    by (unfold loaded; now rewrite Hsame).
  split; [| split].
  - now rewrite !run_stdout, Hl.
  - intros F1 F2 X1 X2.
    apply list_contains_In in F1, F2.
    destruct (run_json_text _ _ F1 X1) as (p1 & L1 & T1).
    destruct (run_json_text _ _ F2 X2) as (p2 & L2 & T2).
    exists (json_dumps p1). split; [exact T1 |].
    rewrite T2. congruence.
  - apply run_again.
Qed.

(** ** The classifier's first row *)

(** C9.  The extracted lr_coef is the first row of the coefficient matrix
    and lr_intercept the first element of the intercept vector; the rows
    and intercepts after the first are ignored without any error: two
    pipelines that differ only there yield the same parameter set. *)
Theorem C9_first_row_only model a :
  holds model a ->
  extract model
  = Ok [ ("scaler_mean", flat (mean a));
         ("scaler_scale", flat (scale a));
         ("lr_coef", flat (coef a));
         ("lr_intercept", PFloat (intercept a)) ]
  /\ forall model' a',
       holds model' a' ->
       mean a' = mean a -> scale a' = scale a ->
       coef a' = coef a -> intercept a' = intercept a ->
       extract model' = extract model.
Proof.
  intros Hh. split; [exact (extract_holds _ _ Hh) |].
  intros model' a' Hh' Hm Hs Hc Hb.
  rewrite (extract_holds _ _ Hh), (extract_holds _ _ Hh').
  unfold params_of. now rewrite Hm, Hs, Hc, Hb.
Qed.

(** ** Malformed input *)

(** A malformed object makes lines 28 to 36 raise. *)
Lemma malformed_extract model : malformed model -> exists ex, extract model = Raise ex.
Proof.
  intros [[ex E] | [[ex E] | (scaler & lr & H0 & H1 & Hlacks)]].
  - unfold extract. rewrite E. eexists. reflexivity.
  - unfold extract. destruct (getitem model 0); [| eauto].
    cbn [rbind]. rewrite E. eexists. reflexivity.
  - unfold extract. rewrite H0, H1. cbn [rbind].
    destruct Hlacks as [[ex E] | [[ex E] | [[ex E] | [ex E]]]].
    + rewrite E. eexists. reflexivity.
    + destruct (rbind (getattr scaler "mean_") tolist); [| eauto].
      cbn [rbind]. rewrite E. eexists. reflexivity.
    + destruct (rbind (getattr scaler "mean_") tolist); [| eauto].
      cbn [rbind]. destruct (rbind (getattr scaler "scale_") tolist); [| eauto].
      cbn [rbind]. rewrite E. eexists. reflexivity.
    + destruct (rbind (getattr scaler "mean_") tolist); [| eauto].
      cbn [rbind]. destruct (rbind (getattr scaler "scale_") tolist); [| eauto].
      cbn [rbind].
      destruct (rbind (rbind (getattr lr "coef_") (fun c => getitem c 0)) tolist);
        [| eauto].
      cbn [rbind]. rewrite E. eexists. reflexivity.
Qed.

(** Lines 20 to 36 when the file is there and loading it or [extract]
    raises *)
Lemma main_reading_raises e files (w : bool) (c : content float) (ex : exn) :
  files !! path_str (PKL_PATH e) = Some (File true w c) ->
  rbind (pickle_load c) extract = Raise ex ->
  main e (State files [])
  = (Raise ex, State files [EvOpen (path_str (PKL_PATH e)) ModeRead]).
Proof.
  intros Hf Hx. unfold main, bind, path_exists, open_read, bind, emit, lift. simpl.
  rewrite Hf. simpl. rewrite Hf. simpl.
  destruct (pickle_load c) as [model |]; cbn [rbind] in Hx.
  - now rewrite Hx.
  - now injection Hx as ->.
Qed.

(** Unusable content makes lines 25 to 36 raise an error. *)
Lemma unusable_raises (c : content float) :
  unusable c ->
  exists ex, rbind (pickle_load c) extract = Raise ex /\ is_exit ex = false.
Proof.
  intros [(ex & Hload & Hex) | (model & -> & Hm)].
  - exists ex. now rewrite Hload.
  - destruct (malformed_extract _ Hm) as [ex Hx].
    exists ex. split; [exact Hx | exact (extract_raises _ _ Hx)].
Qed.

(** C8, as the code has it.  When deserializing the input file raises an
    error, or yields an object that has no element 0 or no element 1 to
    subscript, or whose elements 0 and 1 lack one of the attributes
    mean_, scale_, coef_ and intercept_, nothing detects it: the exception
    of the failing step is not caught, the interpreter writes its stack
    trace to the diagnostic stream and the process ends with status 1. *)
Theorem C8_unhandled_error e files (w : bool) (c : content float) :
  files !! path_str (PKL_PATH e) = Some (File true w c) ->
  unusable c ->
  exists ex,
    rbind (pickle_load c) extract = Raise ex
    /\ is_exit ex = false
    /\ uncaught (run e files) ex
    /\ stderr (run e files) = traceback ex
    /\ exit_status (run e files) = 1%Z.
Proof.
  intros Hf Hu.
  destruct (unusable_raises _ Hu) as (ex & Hx & Hex).
  exists ex. split; [exact Hx | split; [exact Hex |]].
  unfold run. rewrite (main_reading_raises _ _ _ _ _ Hf Hx).
  rewrite (interpreter_exit_raise _ _ Hex). cbn [fs trace app].
  split; [| split; [| reflexivity]].
  - exists [EvOpen (path_str (PKL_PATH e)) ModeRead]. split; [reflexivity |].
    now repeat constructor.
  - unfold stderr. cbn [final trace stream_text event_text].
    apply append_nil_r.
Qed.

(** ** Reading standard output back *)

Lemma free_of_weaken (d d' : ascii -> bool) (t : string) :
  (forall c, d c = true -> d' c = true) ->
  free_of d' t = true -> free_of d t = true.
Proof.
  intros Hd. unfold free_of. rewrite !forallb_forall. intros H c Hc.
  specialize (H c Hc). destruct (d c) eqn:E; [| reflexivity].
  now rewrite (Hd c E) in H.
Qed.

(** A clean text is a token of both formats, and no key. *)
Lemma clean_token (t : string) :
  clean t = true ->
  free_of delimiter t = true /\ nonempty t = true /\ is_key t = false.
Proof.
  unfold clean. intros H. apply andb_true_iff in H as [Hn Hf].
  split; [| split; [exact Hn |]].
  - eapply free_of_weaken; [| exact Hf]. intros c E. cbv beta. now rewrite E.
  - destruct t as [|c t]; [reflexivity |].
    unfold free_of in Hf. simpl in Hf. apply andb_true_iff in Hf as [Hc _].
    apply negb_true_iff, orb_false_iff in Hc as [_ Hc]. exact Hc.
Qed.

Lemma Forall_clean_tokens (ts : list string) :
  Forall (fun t => clean t = true) ts ->
  Forall (fun t => free_of delimiter t = true /\ nonempty t = true) ts.
Proof.
  intros Hts. eapply Forall_impl; [exact Hts |].
  intros t H. destruct (clean_token t H) as (? & ? & _). now split.
Qed.

(** Separators after a token end it. *)
Lemma tokens_from_end d (sep : string) c : forall cur s,
  made_of d sep = true -> d c = true ->
  tokens_from d cur (sep +:+ String c s) = flush cur ++ tokens_from d EmptyString s.
Proof.
  induction sep as [|c' sep IH]; intros cur s Hsep Hc; simpl.
  - now rewrite Hc.
  - unfold made_of in Hsep. simpl in Hsep. apply andb_true_iff in Hsep as [Hc' Hsep].
    rewrite Hc'. now rewrite (IH EmptyString s Hsep Hc).
Qed.

Lemma made_of_spaces (n : nat) : made_of delimiter (replicate_char n space) = true.
Proof. induction n as [|n IH]; [reflexivity | exact IH]. Qed.

(** The tokens of [let NAME = ...]: the keyword, the name, and what the
    value holds *)
Lemma tokens_let_statement (name : string) (pad : nat) (value : string) :
  free_of delimiter name = true -> nonempty name = true ->
  tokens delimiter (let_statement name pad value)
  = "let" :: name :: tokens delimiter (value +:+ ";").
Proof.
  intros Hf Hn. unfold tokens, let_statement.
  change ("let " +:+ ?x) with ("let" +:+ String " " x).
  rewrite tokens_from_token by reflexivity. f_equal.
  rewrite tokens_from_free by exact Hf. cbn [String.append].
  change ("= " +:+ ?x) with (String "=" (String " " x)).
  rewrite tokens_from_end by (reflexivity || apply made_of_spaces).
  unfold flush. rewrite Hn. cbn [app]. f_equal.
Qed.

Lemma tokens_vector_text (xs : list float) :
  Forall (fun x => clean (float_repr x) = true) xs ->
  tokens delimiter (vector_text xs +:+ ";") = map float_repr xs.
Proof.
  intros H. unfold tokens, vector_text. rewrite !append_assoc.
  cbn [String.append]. cbn [tokens_from]. 
  change (delimiter "[") with true. cbn [flush nonempty app].
  change ("]" +:+ ";") with (String "]" ";").
  rewrite tokens_from_join; try reflexivity.
  - apply app_nil_r.
  - apply Forall_clean_tokens. now rewrite Forall_map.
Qed.

Lemma tokens_number_text (x : float) :
  clean (float_repr x) = true ->
  tokens delimiter (float_repr x +:+ ";") = [float_repr x].
Proof.
  intros H. destruct (clean_token _ H) as (Hf & Hn & _).
  unfold tokens. change ";" with (String ";" EmptyString).
  now rewrite tokens_from_token.
Qed.

Lemma read_let_vector (name : string) (pad : nat) (xs : list float) :
  free_of delimiter name = true -> nonempty name = true ->
  Forall (fun x => clean (float_repr x) = true) xs ->
  read_let (let_statement name pad (vector_text xs)) = Some (name, map float_repr xs).
Proof.
  intros Hf Hn Hxs. unfold read_let.
  now rewrite tokens_let_statement, tokens_vector_text.
Qed.

Lemma read_let_number (name : string) (pad : nat) (x : float) :
  free_of delimiter name = true -> nonempty name = true ->
  clean (float_repr x) = true ->
  read_let (let_statement name pad (float_repr x)) = Some (name, [float_repr x]).
Proof.
  intros Hf Hn Hx. unfold read_let.
  now rewrite tokens_let_statement, tokens_number_text.
Qed.

(** Standard output of a run on a well-formed file, read back *)
Lemma read_stdout_report a :
  Forall (fun x => clean (float_repr x) = true) (values a) ->
  read_stdout (unlines (report_lines a))
  = [ ("SCALER_MEAN", map float_repr (mean a));
      ("SCALER_SCALE", map float_repr (scale a));
      ("LR_COEF", map float_repr (coef a));
      ("LR_INTERCEPT", [float_repr (intercept a)]) ].
Proof.
  intros Hclean.
  assert (Forall (fun x => one_line (float_repr x) = true) (values a)) as Hline.
  { eapply Forall_impl; [exact Hclean |]. intros x H.
    destruct (clean_token _ H) as (Hf & _ & _).
    eapply free_of_weaken; [| exact Hf]. intros c E.
    apply Ascii.eqb_eq in E. now subst c. }
  unfold read_stdout.
  rewrite split_lines_unlines by now apply one_line_report_lines.
  unfold values in Hclean. rewrite !Forall_app in Hclean.
  destruct Hclean as (Hm & Hs & Hc & Hb). apply Forall_inv in Hb.
  unfold report_lines. cbn [app omap list_omap].
  rewrite !read_let_vector, read_let_number by (reflexivity || assumption).
  assert (read_let banner = None) as -> by (vm_compute; reflexivity).
  reflexivity.
Qed.

(** C4.  For a well-formed pipeline with [k] features, each of the three
    printed arrays has exactly [k] elements and the printed intercept is a
    single number.  (A float rendering is assumed to be a clean token.) *)
Theorem C4_one_entry_per_feature e files a (k : nat) :
  well_formed_file e files a ->
  features a = k ->
  Forall (fun x => clean (float_repr x) = true) (values a) ->
  exists (m s c : list string) (b : string),
    read_stdout (stdout (run e files))
    = [ ("SCALER_MEAN", m); ("SCALER_SCALE", s); ("LR_COEF", c); ("LR_INTERCEPT", [b]) ]
    /\ length m = k /\ length s = k /\ length c = k.
Proof.
  intros Hwf Hk Hclean.
  rewrite (run_stdout_well_formed _ _ _ Hwf), (read_stdout_report _ Hclean).
  destruct Hwf as (w & model & _ & _ & [Hs Hc _ _]).
  do 4 eexists. split; [reflexivity |].
  rewrite !length_map. unfold features in *. repeat split; congruence.
Qed.

(** ** Reading the JSON document back *)

Lemma made_of_newline_indent (level : nat) :
  made_of delimiter (json_newline_indent level) = true.
Proof.
  unfold json_newline_indent, made_of. rewrite chars_append, forallb_app.
  change (forallb delimiter (chars nl)) with true. apply made_of_spaces.
Qed.

Lemma newline_indent_cons (level : nat) (s : string) :
  json_newline_indent level +:+ s
  = String newline (replicate_char (2 * level) space +:+ s).
Proof. reflexivity. Qed.

(** The tokens of an array of numbers are the numbers. *)
Lemma tokens_json_array (level : nat) (items : list string) (s : string) :
  Forall (fun t => clean t = true) items ->
  tokens_from delimiter EmptyString (json_block "[" "]" level items +:+ s)
  = items ++ tokens_from delimiter EmptyString s.
Proof.
  intros Hitems. unfold json_block. destruct items as [|x xs]; [reflexivity |].
  rewrite !append_assoc.
  change ("[" +:+ ?t) with (String "[" t). cbn [tokens_from].
  change (delimiter "[") with true. cbn [flush nonempty app].
  rewrite tokens_from_skip by apply made_of_newline_indent.
  rewrite newline_indent_cons.
  rewrite tokens_from_join.
  - f_equal. rewrite tokens_from_skip by apply made_of_spaces.
    now change ("]" +:+ s) with (String "]" s).
  - change ("," +:+ ?t) with (String "," t).
    apply (made_of_newline_indent (S level)).
  - reflexivity.
  - reflexivity.
  - now apply Forall_clean_tokens.
Qed.

Lemma json_value_flat (level : nat) (xs : list float) :
  json_value level (flat xs) = json_block "[" "]" level (map json_number xs).
Proof. unfold flat. cbn [json_value]. now rewrite map_map. Qed.

(** The tokens of a member that holds an array *)
Lemma tokens_json_member_array (k : string) (xs : list float) (s : string) :
  free_of delimiter (json_key k) = true ->
  Forall (fun x => clean (json_number x) = true) xs ->
  tokens_from delimiter EmptyString (json_member 1 (k, flat xs) +:+ s)
  = json_key k :: map json_number xs ++ tokens_from delimiter EmptyString s.
Proof.
  intros Hk Hxs. unfold json_member. cbn [fst snd].
  rewrite !append_assoc. change (": " +:+ ?t) with (String ":" (String " " t)).
  rewrite tokens_from_token by (reflexivity || exact Hk). f_equal.
  cbn [tokens_from]. change (delimiter " ") with true. cbn [flush nonempty app].
  rewrite json_value_flat. apply tokens_json_array. now rewrite Forall_map.
Qed.

(** The tokens of a member that holds a number *)
Lemma tokens_json_member_number (k : string) (x : float) (c : ascii) (s : string) :
  free_of delimiter (json_key k) = true ->
  clean (json_number x) = true -> delimiter c = true ->
  tokens_from delimiter EmptyString (json_member 1 (k, PFloat x) +:+ String c s)
  = json_key k :: json_number x :: tokens_from delimiter EmptyString s.
Proof.
  intros Hk Hx Hc. unfold json_member. cbn [fst snd json_value].
  rewrite !append_assoc. change (": " +:+ ?t) with (String ":" (String " " t)).
  rewrite tokens_from_token by (reflexivity || exact Hk). f_equal.
  cbn [tokens_from]. change (delimiter " ") with true. cbn [flush nonempty app].
  destruct (clean_token _ Hx) as (Hf & Hn & _).
  now rewrite tokens_from_token.
Qed.

Lemma tokens_json_dumps a :
  Forall (fun x => clean (json_number x) = true) (values a) ->
  tokens delimiter (json_dumps (params_of a))
  = json_key "scaler_mean" :: map json_number (mean a)
    ++ json_key "scaler_scale" :: map json_number (scale a)
    ++ json_key "lr_coef" :: map json_number (coef a)
    ++ [json_key "lr_intercept"; json_number (intercept a)].
Proof.
  unfold values. rewrite !Forall_app. intros (Hm & Hs & Hc & Hb).
  apply Forall_inv in Hb.
  unfold tokens, json_dumps, params_of, parameter_set, json_block.
  cbn [map join String.concat].
  rewrite !append_assoc.
  change ("{" +:+ ?t) with (String "{" t). cbn [tokens_from].
  change (delimiter "{") with true. cbn [flush nonempty app].
  rewrite tokens_from_skip by apply made_of_newline_indent.
  rewrite tokens_json_member_array by (reflexivity || assumption). f_equal. f_equal.
  change ("," +:+ ?t) with (String "," t). cbn [tokens_from].
  change (delimiter ",") with true. cbn [flush nonempty app].
  rewrite tokens_from_skip by apply made_of_newline_indent.
  rewrite tokens_json_member_array by (reflexivity || assumption). f_equal. f_equal.
  change ("," +:+ ?t) with (String "," t). cbn [tokens_from].
  change (delimiter ",") with true. cbn [flush nonempty app].
  rewrite tokens_from_skip by apply made_of_newline_indent.
  rewrite tokens_json_member_array by (reflexivity || assumption). f_equal. f_equal.
  change ("," +:+ ?t) with (String "," t). cbn [tokens_from].
  change (delimiter ",") with true. cbn [flush nonempty app].
  rewrite tokens_from_skip by apply made_of_newline_indent.
  rewrite newline_indent_cons.
  rewrite tokens_json_member_number by (reflexivity || assumption).
  reflexivity.
Qed.

(** Numbers go to the field whose key precedes them. *)
Lemma group_numbers (vs rest : list string) :
  Forall (fun t => is_key t = false) vs ->
  fold_right group_field ([], []) (vs ++ rest)
  = (vs ++ fst (fold_right group_field ([], []) rest),
     snd (fold_right group_field ([], []) rest)).
Proof.
  induction 1 as [|v vs Hv Hvs IH]; cbn [app fold_right].
  - now destruct (fold_right group_field ([], []) rest).
  - rewrite IH. unfold group_field at 1. now rewrite Hv.
Qed.

Lemma group_key (k : string) (rest : list string) :
  is_key k = true ->
  fold_right group_field ([], []) (k :: rest)
  = ([], (unquote k, fst (fold_right group_field ([], []) rest))
         :: snd (fold_right group_field ([], []) rest)).
Proof. intros Hk. cbn [fold_right]. unfold group_field at 1. now rewrite Hk. Qed.

Lemma Forall_not_key (xs : list float) :
  Forall (fun x => clean (json_number x) = true) xs ->
  Forall (fun t => is_key t = false) (map json_number xs).
Proof.
  intros H. rewrite Forall_map. eapply Forall_impl; [exact H |].
  intros x Hx. now destruct (clean_token _ Hx) as (_ & _ & ?).
Qed.

(** The JSON document of a run on a well-formed file, read back *)
Lemma read_json_dumps a :
  Forall (fun x => clean (json_number x) = true) (values a) ->
  read_json (json_dumps (params_of a))
  = [ ("scaler_mean", map json_number (mean a));
      ("scaler_scale", map json_number (scale a));
      ("lr_coef", map json_number (coef a));
      ("lr_intercept", [json_number (intercept a)]) ].
Proof.
  intros Hclean. unfold read_json. rewrite (tokens_json_dumps _ Hclean).
  unfold values in Hclean. rewrite !Forall_app in Hclean.
  destruct Hclean as (Hm & Hs & Hc & Hb). apply Forall_inv in Hb.
  destruct (clean_token _ Hb) as (_ & _ & Hbk).
  rewrite group_key by reflexivity. rewrite group_numbers by now apply Forall_not_key.
  rewrite group_key by reflexivity. rewrite group_numbers by now apply Forall_not_key.
  rewrite group_key by reflexivity. rewrite group_numbers by now apply Forall_not_key.
  rewrite group_key by reflexivity.
  cbn [fold_right]. unfold group_field. rewrite Hbk.
  cbn [fst snd]. rewrite !app_nil_r. reflexivity.
Qed.

Lemma parse_rendered (render : float -> string) (xs : list float) :
  Forall (fun x => float_parse (render x) = Some x) xs ->
  map float_parse (map render xs) = map Some xs.
Proof.
  intros H. rewrite map_map. induction H as [|x xs Hx Hxs IH]; [reflexivity |].
  cbn [map]. now rewrite Hx, IH.
Qed.

(** C5.  Round trip: on a well-formed artefact whose numbers are readable
    from their renderings (the tolerance of the float representation) and
    render as clean tokens, the numbers read back from the lines of
    standard output are the numbers read from the artefact, and so are,
    when the flag is given and the run succeeds, the numbers read back
    from the JSON document. *)
Theorem C5_round_trip e files a :
  well_formed_file e files a ->
  Forall printable (values a) ->
  Forall readable (values a) ->
  parse_fields (read_stdout (stdout (run e files)))
  = [ ("SCALER_MEAN", map Some (mean a));
      ("SCALER_SCALE", map Some (scale a));
      ("LR_COEF", map Some (coef a));
      ("LR_INTERCEPT", [Some (intercept a)]) ]
  /\ (In "--json" (argv e) ->
      exit_status (run e files) = 0%Z ->
      option_map (fun text => parse_fields (read_json text))
        (file_text (files_after (run e files)) (path_str (JSON_PATH e)))
      = Some [ ("scaler_mean", map Some (mean a));
               ("scaler_scale", map Some (scale a));
               ("lr_coef", map Some (coef a));
               ("lr_intercept", [Some (intercept a)]) ]).
Proof.
  intros Hwf Hprint Hread.
  assert (Forall (fun x => clean (float_repr x) = true) (values a)) as Hc1
    by (eapply Forall_impl; [exact Hprint | now intros x [? _]]).
  assert (Forall (fun x => clean (json_number x) = true) (values a)) as Hc2
    by (eapply Forall_impl; [exact Hprint | now intros x [_ ?]]).
  assert (Forall (fun x => float_parse (float_repr x) = Some x) (values a)) as Hr1
    by (eapply Forall_impl; [exact Hread | now intros x [? _]]).
  assert (Forall (fun x => float_parse (json_number x) = Some x) (values a)) as Hr2
    by (eapply Forall_impl; [exact Hread | now intros x [_ ?]]).
  unfold values in Hr1, Hr2. rewrite !Forall_app in Hr1, Hr2.
  destruct Hr1 as (Hm1 & Hs1 & Hk1 & Hb1). apply Forall_inv in Hb1.
  destruct Hr2 as (Hm2 & Hs2 & Hk2 & Hb2). apply Forall_inv in Hb2.
  split.
  - rewrite (run_stdout_well_formed _ _ _ Hwf), (read_stdout_report _ Hc1).
    unfold parse_fields. cbn [map fst snd].
    now rewrite !parse_rendered, Hb1 by assumption.
  - intros Hflag Hexit. apply list_contains_In in Hflag.
    destruct (run_json_text _ _ Hflag Hexit) as (params & Hl & ->).
    destruct Hwf as (w & model & Hf & Hh & _).
    unfold loaded in Hl. rewrite Hf, (extract_holds _ _ Hh) in Hl.
    injection Hl as <-. cbn [option_map].
    rewrite (read_json_dumps _ Hc2).
    unfold parse_fields. cbn [map fst snd].
    now rewrite !parse_rendered, Hb2 by assumption.
Qed.

End Properties.

(** * The scenarios, run *)

Import Decimal Scenario.

Lemma scenario_holds (a : artifact dfloat) : holds (pipeline a) a.
Proof. exists (scaler a), (classifier a). repeat split. Qed.

Lemma scenario_well_formed (e : env) :
  script e = script_file ->
  well_formed_file e (disk (pipeline numbers)) numbers.
Proof.
  intros He. exists false, (pipeline numbers). split; [| split].
  - unfold PKL_PATH. rewrite He. reflexivity.
  - apply scenario_holds.
  - split; [reflexivity | reflexivity | constructor | reflexivity].
Qed.

Lemma scenario_blocked_well_formed :
  well_formed_file json_run (blocked_disk (pipeline numbers)) numbers.
Proof.
  exists false, (pipeline numbers). split; [reflexivity | split].
  - apply scenario_holds.
  - split; [reflexivity | reflexivity | constructor | reflexivity].
Qed.

Lemma scenario_printable : Forall printable (values numbers).
Proof. repeat constructor. Qed.

Lemma scenario_readable : Forall readable (values numbers).
Proof. repeat constructor. Qed.

Lemma scenario_clean : Forall (fun x => clean (float_repr x) = true) (values numbers).
Proof. repeat constructor. Qed.

Lemma scenario_one_line : Forall (fun x => one_line (float_repr x) = true) (values numbers).
Proof. repeat constructor. Qed.

Lemma scenario_flag : In "--json" (argv json_run).
Proof. right. left. reflexivity. Qed.

Lemma scenario_no_flag : ~ In "--json" (argv plain_run).
Proof. intros [H | []]. discriminate. Qed.

Lemma scenario_writable :
  json_writable json_run (disk (pipeline numbers))
    (String.length (document_text numbers)).
Proof. split; [apply Nat.leb_le; reflexivity | reflexivity]. Qed.

(** The JSON-flag scenario of the specification: the document holds the
    four fields with the numbers of the pipeline, and standard output the
    four matching statements. *)
Example json_flag_scenario :
  option_map read_json
    (file_text (files_after (run json_run (disk (pipeline numbers))))
       "/repo/xg_model_params.json")
  = Some [ ("scaler_mean", ["0.1"; "0.2"; "0.3"]);
           ("scaler_scale", ["1.0"; "1.1"; "1.2"]);
           ("lr_coef", ["0.5"; "-0.3"; "0.2"]);
           ("lr_intercept", ["-1.4"]) ]
  /\ read_stdout (stdout (run json_run (disk (pipeline numbers))))
     = [ ("SCALER_MEAN", ["0.1"; "0.2"; "0.3"]);
         ("SCALER_SCALE", ["1.0"; "1.1"; "1.2"]);
         ("LR_COEF", ["0.5"; "-0.3"; "0.2"]);
         ("LR_INTERCEPT", ["-1.4"]) ].
Proof. split; vm_compute; reflexivity. Qed.

(** The document itself, line by line *)
Example json_flag_document :
  option_map split_lines
    (file_text (files_after (run json_run (disk (pipeline numbers))))
       "/repo/xg_model_params.json")
  = Some [ "{";
           "  " +:+ json_key "scaler_mean" +:+ ": [";
           "    0.1,"; "    0.2,"; "    0.3";
           "  ],";
           "  " +:+ json_key "scaler_scale" +:+ ": [";
           "    1.0,"; "    1.1,"; "    1.2";
           "  ],";
           "  " +:+ json_key "lr_coef" +:+ ": [";
           "    0.5,"; "    -0.3,"; "    0.2";
           "  ],";
           "  " +:+ json_key "lr_intercept" +:+ ": -1.4";
           "}" ].
Proof. vm_compute. reflexivity. Qed.

Lemma C1_witness :
  split_lines (stdout (run json_run (disk (pipeline numbers))))
  = [ "// ── Paste these into src/utils/xgModel.ts ──";
      "let SCALER_MEAN  = [0.1, 0.2, 0.3];";
      "let SCALER_SCALE = [1.0, 1.1, 1.2];";
      "let LR_COEF      = [0.5, -0.3, 0.2];";
      "let LR_INTERCEPT  = -1.4;";
      EmptyString ]
  /\ String.prefix "//" banner = true.
Proof.
  exact (C1_stdout_five_lines json_run (disk (pipeline numbers)) numbers
           (scenario_well_formed json_run eq_refl) scenario_one_line).
Defined.

Lemma C2_witness :
  file_text (files_after (run json_run (disk (pipeline numbers))))
    "/repo/xg_model_params.json"
  = Some (document_text numbers)
  /\ JSON_PATH json_run = Path true ["repo"; "xg_model_params.json"]
  /\ stderr (run json_run (disk (pipeline numbers)))
     = nl +:+ "Also wrote → /repo/xg_model_params.json" +:+ nl
  /\ contains "/repo/xg_model_params.json"
       (stderr (run json_run (disk (pipeline numbers)))) = true
  /\ stdout (run json_run (disk (pipeline numbers))) = unlines (report_lines numbers)
  /\ exit_status (run json_run (disk (pipeline numbers))) = 0%Z.
Proof.
  exact (C2_json_flag json_run (disk (pipeline numbers)) numbers
           scenario_flag (scenario_well_formed json_run eq_refl) scenario_writable).
Defined.

(** The flag is given and no document is written: the input file is
    missing (status 1, nothing at the JSON path, no confirmation); the
    input is a well-formed pipeline file and a directory is where the
    document should go (status 1, the directory still there, no
    confirmation); the input is a well-formed pipeline file and the disk
    has room for sixteen bytes (status 1, the file does not hold the
    document, no confirmation). *)
Lemma C2_counterexample :
  In "--json" (argv json_run)
  /\ exit_status (run json_run empty_disk) = 1%Z
  /\ files_after (run json_run empty_disk) !! path_str (JSON_PATH json_run) = None
  /\ existsb is_confirmation (trace (final (run json_run empty_disk))) = false
  /\ well_formed_file json_run (blocked_disk (pipeline numbers)) numbers
  /\ exit_status (run json_run (blocked_disk (pipeline numbers))) = 1%Z
  /\ files_after (run json_run (blocked_disk (pipeline numbers)))
       !! path_str (JSON_PATH json_run) = Some (Dir true)
  /\ existsb is_confirmation
       (trace (final (run json_run (blocked_disk (pipeline numbers))))) = false
  /\ In "--json" (argv cramped_run)
  /\ well_formed_file cramped_run (disk (pipeline numbers)) numbers
  /\ exit_status (run cramped_run (disk (pipeline numbers))) = 1%Z
  /\ option_map (String.eqb (document_text numbers))
       (file_text (files_after (run cramped_run (disk (pipeline numbers))))
          (path_str (JSON_PATH cramped_run))) = Some false
  /\ existsb is_confirmation
       (trace (final (run cramped_run (disk (pipeline numbers))))) = false.
Proof.
  split; [exact scenario_flag |].
  split; [reflexivity | split; [reflexivity | split; [reflexivity |]]].
  split; [exact scenario_blocked_well_formed |].
  split; [reflexivity | split; [reflexivity | split; [reflexivity |]]].
  split; [exact scenario_flag |].
  split; [exact (scenario_well_formed cramped_run eq_refl) |].
  repeat split; vm_compute; reflexivity.
Qed.

Lemma C3_witness :
  stderr (run plain_run empty_disk)
  = "Error: /repo/xg_model.pkl not found. Train the model first (see xGandShotmap.ipynb)."
    +:+ nl
  /\ contains "/repo/xg_model.pkl" (stderr (run plain_run empty_disk)) = true
  /\ exit_status (run plain_run empty_disk) = 1%Z
  /\ stdout (run plain_run empty_disk) = EmptyString
  /\ files_after (run plain_run empty_disk) = empty_disk.
Proof. exact (C3_missing_file plain_run empty_disk eq_refl). Defined.

Lemma C4_witness :
  exists (m s c : list string) (b : string),
    read_stdout (stdout (run plain_run (disk (pipeline numbers))))
    = [ ("SCALER_MEAN", m); ("SCALER_SCALE", s); ("LR_COEF", c); ("LR_INTERCEPT", [b]) ]
    /\ length m = 3 /\ length s = 3 /\ length c = 3.
Proof.
  exact (C4_one_entry_per_feature plain_run (disk (pipeline numbers)) numbers 3
           (scenario_well_formed plain_run eq_refl) eq_refl scenario_clean).
Defined.

Lemma C5_witness :
  parse_fields (read_stdout (stdout (run json_run (disk (pipeline numbers)))))
  = [ ("SCALER_MEAN", map Some (mean numbers));
      ("SCALER_SCALE", map Some (scale numbers));
      ("LR_COEF", map Some (coef numbers));
      ("LR_INTERCEPT", [Some (intercept numbers)]) ]
  /\ option_map (fun text => parse_fields (read_json text))
       (file_text (files_after (run json_run (disk (pipeline numbers))))
          "/repo/xg_model_params.json")
     = Some [ ("scaler_mean", map Some (mean numbers));
              ("scaler_scale", map Some (scale numbers));
              ("lr_coef", map Some (coef numbers));
              ("lr_intercept", [Some (intercept numbers)]) ].
Proof.
  destruct (C5_round_trip json_run (disk (pipeline numbers)) numbers
              (scenario_well_formed json_run eq_refl)
              scenario_printable scenario_readable) as [Hout Hjson].
  split; [exact Hout | exact (Hjson scenario_flag eq_refl)].
Defined.

(** A run with the flag and a run without it, on the same pickle in two
    different states of the directory; and the run with the flag, repeated. *)
Lemma C6_witness :
  stdout (run json_run (disk (pipeline numbers)))
  = stdout (run plain_run (blocked_disk (pipeline numbers)))
  /\ run json_run (files_after (run json_run (disk (pipeline numbers))))
     = run json_run (disk (pipeline numbers)).
Proof.
  destruct (C6_deterministic json_run plain_run
              (disk (pipeline numbers)) (blocked_disk (pipeline numbers)) eq_refl)
    as (Hout & _ & Hagain).
  split; [exact Hout | exact Hagain].
Defined.

Lemma C7_witness :
  files_after (run plain_run (disk (pipeline numbers))) = disk (pipeline numbers)
  /\ Forall (fun ev => is_confirmation ev = false /\ opens_for_writing ev = false)
       (trace (final (run plain_run (disk (pipeline numbers)))))
  /\ stderr (run plain_run (disk (pipeline numbers))) = EmptyString
  /\ exit_status (run plain_run (disk (pipeline numbers))) = 0%Z.
Proof.
  destruct (C7_no_flag plain_run (disk (pipeline numbers)) scenario_no_flag)
    as (Hfiles & Htrace & Hquiet).
  split; [exact Hfiles | split; [exact Htrace |]].
  exact (Hquiet numbers (scenario_well_formed plain_run eq_refl)).
Defined.

Lemma scenario_no_scaler_unusable : unusable (Pickled no_scaler).
Proof.
  right. exists no_scaler. split; [reflexivity |].
  right. left. exists IndexError. reflexivity.
Qed.

Lemma C8_witness :
  exists ex,
    rbind (pickle_load (Pickled no_scaler)) extract = Raise ex
    /\ is_exit ex = false
    /\ uncaught (run plain_run (disk no_scaler)) ex
    /\ stderr (run plain_run (disk no_scaler)) = traceback ex
    /\ exit_status (run plain_run (disk no_scaler)) = 1%Z.
Proof.
  exact (C8_unhandled_error plain_run (disk no_scaler) false (Pickled no_scaler)
           eq_refl scenario_no_scaler_unusable).
Defined.

(** A dict is subscripted by key: with the keys 0 and 1 it passes for the
    pipeline, without them the lookup of 0 fails. *)
Example mapping_subscripted :
  extract keyed = extract (pipeline numbers)
  /\ extract named = Raise (KeyError (KInt 0))
  /\ exit_status (run plain_run (disk keyed)) = 0%Z
  /\ stdout (run plain_run (disk keyed)) = stdout (run plain_run (disk (pipeline numbers)))
  /\ exit_status (run plain_run (disk named)) = 1%Z.
Proof. repeat split; vm_compute; reflexivity. Qed.

(** An empty file at the fixed path: [pickle.load] has nothing to read. *)
Example empty_file_eof :
  uncaught (run plain_run (<[ "/repo/xg_model.pkl" := File true true (Raw EmptyString) ]> empty_disk))
    EOFError.
Proof.
  exists [EvOpen "/repo/xg_model.pkl" ModeRead]. split; [reflexivity |].
  repeat constructor.
Qed.

(** The file is there and holds a pipeline of three stages, which is not
    the expected two-stage structure; the run ends with status 0, writes
    no stack trace, and prints what it prints for the first two stages. *)
Lemma C8_counterexample :
  disk three_stages !! path_str (PKL_PATH plain_run)
  = Some (File true false (Pickled three_stages))
  /\ option_map (@length _) (stages three_stages) = Some 3
  /\ exit_status (run plain_run (disk three_stages)) = 0%Z
  /\ stderr (run plain_run (disk three_stages)) = EmptyString
  /\ stdout (run plain_run (disk three_stages))
     = stdout (run plain_run (disk (pipeline numbers))).
Proof. repeat split; vm_compute; reflexivity. Qed.

Lemma C9_witness :
  extract (pipeline multiclass)
  = Ok [ ("scaler_mean", flat (mean numbers));
         ("scaler_scale", flat (scale numbers));
         ("lr_coef", flat (coef numbers));
         ("lr_intercept", PFloat (intercept numbers)) ]
  /\ extract (pipeline numbers) = extract (pipeline multiclass).
Proof.
  destruct (C9_first_row_only (pipeline multiclass) multiclass
              (scenario_holds multiclass)) as [Hfirst Hrest].
  split; [exact Hfirst |].
  exact (Hrest (pipeline numbers) numbers (scenario_holds numbers)
           eq_refl eq_refl eq_refl eq_refl).
Defined.

(** Opening the document fails (a directory is in its place): the run
    ends with status 1 and the report is complete all the same. *)
Lemma C10_witness :
  exit_status (run json_run (blocked_disk (pipeline numbers))) = 1%Z
  /\ existsb opens_for_writing
       (trace (final (run json_run (blocked_disk (pipeline numbers))))) = true
  /\ stream_text Stdout
       (before_open_write
          (trace (final (run json_run (blocked_disk (pipeline numbers))))))
     = unlines (report_lines numbers)
  /\ stdout (run json_run (blocked_disk (pipeline numbers)))
     = unlines (report_lines numbers).
Proof.
  split; [reflexivity |].
  exact (C10_report_precedes_json json_run (blocked_disk (pipeline numbers)) numbers
           scenario_flag scenario_blocked_well_formed).
Defined.

(** * Every ending of a run *)

Section Endings_properties.

Context {float : Type} {R : Runtime float}.

Implicit Types (e : env) (files : gmap string (node float)) (a : artifact float).
Implicit Types (model : pyval float) (st : state float).

(** Lines 44 to 48 with the flag: the document is written and confirmed,
    or opening it fails and nothing changed, or the disk fills up. *)
Lemma emit_json_outcome e (params : list (string * plain float)) st :
  list_contains "--json" (argv e) = true ->
  (exists files',
     emit_json e params st
     = (Ok tt,
        State files'
          (trace st ++ [ EvOpen (path_str (JSON_PATH e)) ModeWrite;
                         EvWrite (path_str (JSON_PATH e)) (json_dumps params);
                         EvPrint Stderr (confirmation (JSON_PATH e) +:+ nl) ]))
     /\ file_text files' (path_str (JSON_PATH e)) = Some (json_dumps params)
     /\ ~ json_blocked e (fs st))
  \/ (exists ex,
        raised_opening e ex
        /\ json_blocked e (fs st)
        /\ emit_json e params st
           = (Raise ex,
              State (fs st) (trace st ++ [EvOpen (path_str (JSON_PATH e)) ModeWrite])))
  \/ (exists files',
        emit_json e params st
        = (Raise (NoSpaceLeft (path_str (JSON_PATH e))),
           State files'
             (trace st ++ [ EvOpen (path_str (JSON_PATH e)) ModeWrite;
                            EvWrite (path_str (JSON_PATH e)) (json_dumps params) ]))
        /\ disk_free e < String.length (json_dumps params)
        /\ ~ json_blocked e (fs st)).
Proof.
  intros Hflag. unfold emit_json. rewrite Hflag, path_with_name_pkl.
  fold (JSON_PATH e).
  unfold bind, lift, open_write, file_write, print, bind, emit, json_blocked,
    raised_opening.
  cbn [fs trace].
  destruct (fs st !! path_str (JSON_PATH e)) as [[wd | r [|] c] |] eqn:E;
    cbn [fs trace].
  - right; left. eexists. split; [| split; [exact I | reflexivity]]. tauto.
  - rewrite lookup_insert_eq.
    destruct (String.length (json_dumps params) <=? disk_free e) eqn:Hroom;
      cbn [fs trace]; rewrite <- !app_assoc; cbn [app].
    + left. eexists. split; [reflexivity | split; [| discriminate]].
      unfold file_text. now rewrite lookup_insert_eq.
    + right; right. eexists. split; [reflexivity | split; [| discriminate]].
      apply Nat.leb_gt in Hroom. exact Hroom.
  - right; left. eexists. split; [| split; [reflexivity | reflexivity]]. tauto.
  - destruct (fs st !! path_str (path_parent (JSON_PATH e))) as [[[|] | r w c] |] eqn:P;
      cbn [fs trace].
    + rewrite lookup_insert_eq.
      destruct (String.length (json_dumps params) <=? disk_free e) eqn:Hroom;
        cbn [fs trace]; rewrite <- !app_assoc; cbn [app].
      * left. eexists. split; [reflexivity | split; [| intros H; now apply H]].
        unfold file_text. now rewrite lookup_insert_eq.
      * right; right. eexists.
        split; [reflexivity | split; [| intros H; now apply H]].
        apply Nat.leb_gt in Hroom. exact Hroom.
    + right; left. eexists. split; [| split; [discriminate | reflexivity]]. tauto.
    + right; left. eexists. split; [| split; [discriminate | reflexivity]]. tauto.
    + right; left. eexists. split; [| split; [discriminate | reflexivity]]. tauto.
Qed.

(** The five ways a run ends *)
Lemma run_outcomes e files :
  (files !! path_str (PKL_PATH e) = None
   /\ run e files
      = Outcome 1 (State files [EvPrint Stderr (not_found (PKL_PATH e) +:+ nl)]))
  \/ (exists ex,
        loaded e files = None
        /\ is_exit ex = false
        /\ run e files
           = Outcome 1 (State files [ EvOpen (path_str (PKL_PATH e)) ModeRead;
                                      EvTraceback ex ]))
  \/ (exists m s c b,
        loaded e files = Some (parameter_set m s c b)
        /\ ((list_contains "--json" (argv e) = false
             /\ run e files = Outcome 0 (State files (report_events e m s c b)))
            \/ (list_contains "--json" (argv e) = true
                /\ ~ json_blocked e files
                /\ exists files',
                     run e files
                     = Outcome 0
                         (State files'
                            (report_events e m s c b
                             ++ [ EvOpen (path_str (JSON_PATH e)) ModeWrite;
                                  EvWrite (path_str (JSON_PATH e))
                                    (json_dumps (parameter_set m s c b));
                                  EvPrint Stderr (confirmation (JSON_PATH e) +:+ nl) ]))
                     /\ file_text files' (path_str (JSON_PATH e))
                        = Some (json_dumps (parameter_set m s c b)))
            \/ (list_contains "--json" (argv e) = true
                /\ json_blocked e files
                /\ exists ex,
                     raised_opening e ex
                     /\ run e files
                        = Outcome 1
                            (State files
                               (report_events e m s c b
                                ++ [ EvOpen (path_str (JSON_PATH e)) ModeWrite;
                                     EvTraceback ex ])))
            \/ (list_contains "--json" (argv e) = true
                /\ ~ json_blocked e files
                /\ disk_free e < String.length (json_dumps (parameter_set m s c b))
                /\ exists files',
                     run e files
                     = Outcome 1
                         (State files'
                            (report_events e m s c b
                             ++ [ EvOpen (path_str (JSON_PATH e)) ModeWrite;
                                  EvWrite (path_str (JSON_PATH e))
                                    (json_dumps (parameter_set m s c b));
                                  EvTraceback (NoSpaceLeft (path_str (JSON_PATH e))) ]))))).
Proof.
  destruct (main_cases e files)
    as [[Hn _] | [(n & ex & Hn & Hl & _) | (w & model & m & s & c & b & Hn & Hx & Hm)]].
  - left. split; [exact Hn | now apply run_missing].
  - right; left. destruct (run_not_loaded _ _ _ Hn Hl) as (ex' & Hk & Hr).
    exists ex'. now repeat split.
  - right; right. exists m, s, c, b. split.
    { unfold loaded. now rewrite Hn, Hx. }
    unfold run. rewrite Hm. fold (report_events e m s c b).
    destruct (list_contains "--json" (argv e)) eqn:Hflag.
    + right.
      destruct (emit_json_outcome e (parameter_set m s c b)
                  (State files (report_events e m s c b)) Hflag)
        as [(files' & -> & Ht & Hb) | [(ex & Hk & Hb & ->) | (files' & -> & Hroom & Hb)]];
        cbn [fs trace] in *.
      * left. split; [reflexivity | split; [exact Hb |]]. exists files'. now split.
      * right; left. split; [reflexivity | split; [exact Hb |]]. exists ex.
        split; [exact Hk |].
        rewrite interpreter_exit_raise by (destruct Hk as [-> | [-> | [-> | ->]]]; reflexivity).
        cbn [fs trace]. now rewrite <- app_assoc.
      * right; right. split; [reflexivity | split; [exact Hb | split; [exact Hroom |]]].
        exists files'.
        cbn [interpreter_exit fs trace]. now rewrite <- app_assoc.
    + left. split; [reflexivity |]. now rewrite emit_json_no_flag.
Qed.

Lemma list_contains_false (x : string) (l : list string) :
  list_contains x l = false <-> ~ In x l.
Proof.
  rewrite <- list_contains_In. destruct (list_contains x l); split; easy.
Qed.

Lemma stderr_report_events e (m s c : plain float) (b : float) (tr : list event) :
  stream_text Stderr (report_events e m s c b ++ tr) = stream_text Stderr tr.
Proof.
  unfold report_events. cbn [app stream_text event_text].
  now rewrite stream_text_app, stream_text_stderr_print_events.
Qed.

Lemma stdout_report_events e (m s c : plain float) (b : float) (tr : list event) :
  stream_text Stdout (report_events e m s c b ++ tr)
  = unlines (printed_lines m s c b) +:+ stream_text Stdout tr.
Proof.
  unfold report_events. cbn [app stream_text event_text].
  now rewrite stream_text_app, stream_text_print_events.
Qed.


Lemma confirmation_report_events e (m s c : plain float) (b : float) (tr : list event) :
  existsb is_confirmation (report_events e m s c b ++ tr) = existsb is_confirmation tr.
Proof. now rewrite existsb_app. Qed.


Lemma last_event_app (tr l : list event) (ev : event) :
  last_event l = Some ev -> last_event (tr ++ l) = Some ev.
Proof.
  intros H. induction tr as [|x tr IH]; [exact H |].
  unfold last_event in *. cbn [app map last].
  destruct (map Some (tr ++ l)); [discriminate | exact IH].
Qed.



Lemma not_found_no_confirmation (p : path) :
  is_confirmation (EvPrint Stderr (not_found p +:+ nl)) = false.
Proof. reflexivity. Qed.

(** Standard output of a run on a pipeline that holds the numbers [a],
    whether or not its vectors agree in length *)
Lemma run_stdout_holds e files (w : bool) model a :
  files !! path_str (PKL_PATH e) = Some (File true w (Pickled model)) ->
  holds model a ->
  stdout (run e files) = unlines (report_lines a)
  /\ loaded e files = Some (params_of a).
Proof.
  intros Hf Hh. pose proof (extract_holds _ _ Hh) as Hx. split.
  - rewrite report_lines_printed. now apply (run_stdout_reports _ _ w model).
  - unfold loaded. now rewrite Hf, Hx.
Qed.

(** X1.  The arguments matter only through the presence of the flag
    token: two invocations of the same script with the same room on the
    disk, whose argument lists both hold the token or both lack it, end in
    the same way on the same files, whatever else the lists hold and in
    whatever order. *)
Theorem X1_unknown_arguments_ignored e1 e2 files :
  script e1 = script e2 ->
  disk_free e1 = disk_free e2 ->
  (In "--json" (argv e1) <-> In "--json" (argv e2)) ->
  run e1 files = run e2 files.
Proof.
  intros Hs Hd Hflag.
  assert (list_contains "--json" (argv e1) = list_contains "--json" (argv e2)) as Hb.
  { destruct (list_contains "--json" (argv e2)) eqn:E.
    - apply list_contains_In, Hflag, list_contains_In, E.
    - apply list_contains_false. intros H. apply Hflag in H.
      apply list_contains_In in H. congruence. }
  destruct e1 as [argv1 script1 free1], e2 as [argv2 script2 free2].
  cbn [argv script disk_free] in *. subst script2 free2.
  unfold run, main, emit_json, file_write, PKL_PATH. cbn [argv script disk_free].
  now rewrite Hb.
Qed.



(** X4.  Status 0 certifies the products.  When what is at the fixed path
    is a pickle of plain data and the run ends with status 0, a parameter
    set was loaded and standard output holds its complete report; with the
    flag the JSON document holds its complete encoding and the
    confirmation is all the diagnostic stream received, without the flag
    no file changed and the diagnostic stream received nothing. *)
Theorem X4_status_zero_certifies e files :
  data_input e files ->
  exit_status (run e files) = 0%Z ->
  exists m s c b,
    loaded e files = Some (parameter_set m s c b)
    /\ stdout (run e files) = unlines (printed_lines m s c b)
    /\ (In "--json" (argv e) ->
        file_text (files_after (run e files)) (path_str (JSON_PATH e))
        = Some (json_dumps (parameter_set m s c b))
        /\ stderr (run e files) = confirmation (JSON_PATH e) +:+ nl)
    /\ (~ In "--json" (argv e) ->
        files_after (run e files) = files
        /\ stderr (run e files) = EmptyString).
Proof.
  intros _.
  destruct (run_outcomes e files)
    as [[Hn Hr] | [(ex & Hl & _ & Hr) | (m & s & c & b & Hl & Hcases)]].
  - rewrite Hr. discriminate.
  - rewrite Hr. discriminate.
  - assert (stdout (run e files) = unlines (printed_lines m s c b)) as Hout
      by now rewrite run_stdout, Hl.
    destruct Hcases
      as [[F Hr] | [(F & _ & files' & Hr & Ht) | [(F & _ & ex & _ & Hr)
         | (F & _ & _ & files' & Hr)]]];
      rewrite Hr in *; try discriminate.
    + intros _. exists m, s, c, b. split; [exact Hl | split; [exact Hout |]].
      split.
      * intros Hflag. apply list_contains_In in Hflag. congruence.
      * intros _. split; [reflexivity |]. unfold stderr. cbn [final trace].
        rewrite <- (app_nil_r (report_events e m s c b)). apply stderr_report_events.
    + intros _. exists m, s, c, b. split; [exact Hl | split; [exact Hout |]].
      split.
      * intros _. split; [exact Ht |]. unfold stderr. cbn [final trace].
        rewrite stderr_report_events. cbn [stream_text event_text].
        now rewrite append_nil_r.
      * intros Hflag. apply list_contains_false in Hflag. congruence.
Qed.

(** X5.  The confirmation is printed only after the document was written
    in full: when a confirmation line went to the diagnostic stream, the
    flag was given, the JSON document holds the complete encoding of the
    loaded parameter set, the confirmation is the last thing that
    happened and the exit status is 0. *)
Theorem X5_confirmation_means_written e files :
  existsb is_confirmation (trace (final (run e files))) = true ->
  In "--json" (argv e)
  /\ exit_status (run e files) = 0%Z
  /\ last_event (trace (final (run e files)))
     = Some (EvPrint Stderr (confirmation (JSON_PATH e) +:+ nl))
  /\ exists params,
       loaded e files = Some params
       /\ file_text (files_after (run e files)) (path_str (JSON_PATH e))
          = Some (json_dumps params).
Proof.
  destruct (run_outcomes e files)
    as [[Hn Hr] | [(ex & Hl & _ & Hr) | (m & s & c & b & Hl & Hcases)]].
  - rewrite Hr. cbn [final trace existsb].
    rewrite not_found_no_confirmation. discriminate.
  - rewrite Hr. discriminate.
  - destruct Hcases
      as [[F Hr] | [(F & _ & files' & Hr & Ht) | [(F & _ & ex & _ & Hr)
         | (F & _ & _ & files' & Hr)]]];
      rewrite Hr; cbn [final trace exit_status];
      first [ rewrite confirmation_report_events
            | rewrite <- (app_nil_r (report_events e m s c b)),
                confirmation_report_events ];
      try discriminate.
    intros _. apply list_contains_In in F.
    split; [exact F | split; [reflexivity | split]].
    + now apply last_event_app.
    + exists (parameter_set m s c b). now split.
Qed.



(** X8.  The script's own calls of [open] name two paths and no other:
    the fixed path, opened for reading only, and the JSON path, opened for
    writing only; it writes to what it opened at the JSON path alone.  The two are different names: the
    same directory prefix followed by the two fixed file names. *)
Theorem X8_two_paths_only e files :
  Forall (intended_access e) (trace (final (run e files)))
  /\ path_str (JSON_PATH e) <> path_str (PKL_PATH e)
  /\ exists prefix,
       path_str (PKL_PATH e) = prefix +:+ "xg_model.pkl"
       /\ path_str (JSON_PATH e) = prefix +:+ "xg_model_params.json".
Proof.
  split; [| split; [apply json_path_not_pkl |]].
  - assert (forall m s c b, Forall (intended_access e) (report_events e m s c b))
      as Hreport.
    { intros m s c b. constructor; [reflexivity |].
      now apply Forall_print_events. }
    destruct (run_outcomes e files)
      as [[Hn ->] | [(ex & Hl & _ & ->) | (m & s & c & b & Hl & Hcases)]].
    + now repeat constructor.
    + now repeat constructor.
    + destruct Hcases
        as [[_ ->] | [(_ & _ & files' & -> & _) | [(_ & _ & ex & _ & ->)
           | (_ & _ & _ & files' & ->)]]];
        cbn [final trace]; rewrite ?Forall_app; repeat split;
        try apply Hreport; now repeat constructor.
  - destruct (path_str_snoc (absolute (script e)) (removelast (parts (script e))))
      as [prefix H].
    exists prefix. split; apply H.
Qed.

Lemma json_number_finite (xs : list float) :
  Forall (fun x => float_class x = Finite) xs ->
  map json_number xs = map float_repr xs.
Proof.
  induction 1 as [|x xs Hx Hxs IH]; [reflexivity |].
  cbn [map]. rewrite IH. unfold json_number. now rewrite Hx.
Qed.

(** X11.  The deserialized object is looked at through its elements 0
    and 1 only.  Two objects that answer subscripting with 0 and with 1
    alike (a two-stage pipeline, a pipeline with further stages after the
    same two, a list or a dict that holds the same two estimators under 0
    and 1) yield the same parameter set or raise the same exception, and
    the runs on them print the same report. *)
Theorem X11_elements_only e files files' (w w' : bool) model model' :
  files !! path_str (PKL_PATH e) = Some (File true w (Pickled model)) ->
  files' !! path_str (PKL_PATH e) = Some (File true w' (Pickled model')) ->
  getitem model' 0 = getitem model 0 ->
  getitem model' 1 = getitem model 1 ->
  extract model' = extract model
  /\ stdout (run e files') = stdout (run e files).
Proof.
  intros Hf Hf' H0 H1.
  assert (extract model' = extract model) as Hx
    by (unfold extract; now rewrite H0, H1).
  split; [exact Hx |].
  rewrite !run_stdout. unfold loaded. now rewrite Hf, Hf', Hx.
Qed.

(** X9.  For finite numbers the two outputs show the same digits: on a
    successful run with the flag, the numbers of the four fields of the
    JSON document are, text for text and in the same order, the numbers
    of the four statements on standard output. *)
Theorem X9_same_digits_in_both_outputs e files (w : bool) model a :
  files !! path_str (PKL_PATH e) = Some (File true w (Pickled model)) ->
  holds model a ->
  Forall (fun x => float_class x = Finite) (values a) ->
  Forall (fun x => clean (float_repr x) = true) (values a) ->
  In "--json" (argv e) ->
  exit_status (run e files) = 0%Z ->
  option_map (fun text => map snd (read_json text))
    (file_text (files_after (run e files)) (path_str (JSON_PATH e)))
  = Some (map snd (read_stdout (stdout (run e files)))).
Proof.
  intros Hf Hh Hfin Hclean Hflag Hexit. apply list_contains_In in Hflag.
  destruct (run_stdout_holds _ _ _ _ _ Hf Hh) as [Hout Hl].
  destruct (run_json_text _ _ Hflag Hexit) as (params & Hl' & ->).
  rewrite Hl in Hl'. injection Hl' as <-.
  assert (forall x, In x (values a) -> json_number x = float_repr x) as Hsame.
  { intros x Hx. rewrite Forall_forall in Hfin.
    unfold json_number. rewrite (Hfin x); [reflexivity |].
    now apply list_elem_of_In. }
  assert (Forall (fun x => clean (json_number x) = true) (values a)) as Hclean'.
  { rewrite Forall_forall in *. intros x Hx.
    rewrite Hsame by now apply list_elem_of_In. now apply Hclean. }
  cbn [option_map].
  rewrite (read_json_dumps _ Hclean'), Hout, (read_stdout_report _ Hclean).
  unfold values in Hfin. rewrite !Forall_app in Hfin.
  destruct Hfin as (Hm & Hs & Hc & Hb). apply Forall_inv in Hb.
  cbn [map snd]. rewrite !json_number_finite by assumption.
  unfold json_number. now rewrite Hb.
Qed.


End Endings_properties.

(** * Inputs at the edges, run *)

Import Edge.

Lemma edge_noisy_flag :
  In "--json" (argv noisy_run) <-> In "--json" (argv json_run).
Proof.
  split; intros _; [exact scenario_flag |].
  right. right. left. reflexivity.
Qed.




Lemma edge_finite : Forall (fun x => float_class x = Finite) (values numbers).
Proof. repeat constructor. Qed.

Lemma X1_witness :
  run noisy_run (disk (pipeline numbers)) = run json_run (disk (pipeline numbers)).
Proof.
  exact (X1_unknown_arguments_ignored noisy_run json_run (disk (pipeline numbers))
           eq_refl eq_refl edge_noisy_flag).
Defined.


Lemma X5_witness :
  In "--json" (argv json_run)
  /\ exit_status (run json_run (disk (pipeline numbers))) = 0%Z
  /\ last_event (trace (final (run json_run (disk (pipeline numbers)))))
     = Some (EvPrint Stderr (confirmation (JSON_PATH json_run) +:+ nl))
  /\ exists params,
       loaded json_run (disk (pipeline numbers)) = Some params
       /\ file_text (files_after (run json_run (disk (pipeline numbers))))
            (path_str (JSON_PATH json_run))
          = Some (json_dumps params).
Proof.
  exact (X5_confirmation_means_written json_run (disk (pipeline numbers)) eq_refl).
Defined.



Lemma edge_disk_data : data_input json_run (disk (pipeline numbers)).
Proof. exact I. Qed.


Lemma X4_witness :
  exists m s c b,
    loaded json_run (disk (pipeline numbers)) = Some (parameter_set m s c b)
    /\ stdout (run json_run (disk (pipeline numbers))) = unlines (printed_lines m s c b)
    /\ (In "--json" (argv json_run) ->
        file_text (files_after (run json_run (disk (pipeline numbers))))
          (path_str (JSON_PATH json_run))
        = Some (json_dumps (parameter_set m s c b))
        /\ stderr (run json_run (disk (pipeline numbers)))
           = confirmation (JSON_PATH json_run) +:+ nl)
    /\ (~ In "--json" (argv json_run) ->
        files_after (run json_run (disk (pipeline numbers))) = disk (pipeline numbers)
        /\ stderr (run json_run (disk (pipeline numbers))) = EmptyString).
Proof.
  exact (X4_status_zero_certifies json_run (disk (pipeline numbers))
           edge_disk_data eq_refl).
Defined.



Lemma X11_witness :
  extract keyed = extract (pipeline numbers)
  /\ stdout (run plain_run (disk keyed))
     = stdout (run plain_run (disk (pipeline numbers))).
Proof.
  exact (X11_elements_only plain_run (disk (pipeline numbers)) (disk keyed)
           false false (pipeline numbers) keyed eq_refl eq_refl eq_refl eq_refl).
Defined.

Lemma X9_witness :
  option_map (fun text => map snd (read_json text))
    (file_text (files_after (run json_run (disk (pipeline numbers))))
       (path_str (JSON_PATH json_run)))
  = Some (map snd (read_stdout (stdout (run json_run (disk (pipeline numbers)))))).
Proof.
  exact (X9_same_digits_in_both_outputs json_run (disk (pipeline numbers)) false
           (pipeline numbers) numbers eq_refl (scenario_holds numbers)
           edge_finite scenario_clean scenario_flag eq_refl).
Defined.
